(** * drfexts.renderers: a shallow embedding and its properties

    The module [drfexts/renderers.py] holds three renderers of a web API
    framework: [CustomJSONRenderer] (status envelope around the payload),
    [CustomCSVRenderer] and [CustomXLSXRenderer] (tabular exports built on
    [BaseExportRenderer.tablize]).

    Python values are embedded as the inductive type [value]; insertion
    ordered dictionaries as association lists ([Dict]); exceptions as the
    error monad [result]; the generator [tablize] as a step function [next]
    on its suspended frames, so that the late binding of the row generator
    expressions is part of the model; the mutable response object of the
    JSON renderer by explicit state passing.  The collaborators that live
    outside the module (the CSV writer, the workbook, the JSON serializer)
    are variables of the section [Renderers]. *)

From Stdlib Require Import List String Ascii ZArith Bool Lia DecimalString.
Import ListNotations.

Local Open Scope string_scope.
Local Open Scope Z_scope.

(** ** Exceptions *)

Inductive exn : Type :=
| AttributeError
| KeyError
| TypeError
| IndexError
| NameError
| RuntimeError
| CollaboratorError (name : string).

Inductive result (A : Type) : Type :=
| Ok (a : A)
| Raise (e : exn).

Arguments Ok {A} a.
Arguments Raise {A} e.

Definition bind {A B : Type} (m : result A) (k : A -> result B) : result B :=
  match m with
  | Ok a => k a
  | Raise e => Raise e
  end.

Notation "x <- m ;; k" := (bind m (fun x => k))
  (at level 61, m at next level, right associativity).

Definition bytes : Type := list Byte.byte.

(** ** Insertion-ordered dictionaries with string keys *)

Module Dict.
Section Ops.
Context {V : Type}.

Definition t : Type := list (string * V).

(** [d.get(k)] *)
Fixpoint get (k : string) (d : t) : option V :=
  match d with
  | [] => None
  | (k', v) :: d' => if String.eqb k k' then Some v else get k d'
  end.

(** [d.get(k, default)] *)
Definition get_default (k : string) (default : V) (d : t) : V :=
  match get k d with
  | Some v => v
  | None => default
  end.

(** [d[k]] *)
Definition getitem (k : string) (d : t) : result V :=
  match get k d with
  | Some v => Ok v
  | None => Raise KeyError
  end.

(** [d[k] = v]: an existing key keeps its position, a new one goes last. *)
Fixpoint set (k : string) (v : V) (d : t) : t :=
  match d with
  | [] => [(k, v)]
  | (k', v') :: d' =>
      if String.eqb k k' then (k', v) :: d' else (k', v') :: set k v d'
  end.

(** [d.pop(k, None)], the popped value dropped. *)
Fixpoint pop (k : string) (d : t) : t :=
  match d with
  | [] => []
  | (k', v') :: d' => if String.eqb k k' then d' else (k', v') :: pop k d'
  end.

(** [list(d.keys())] *)
Definition keys (d : t) : list string := map fst d.

(** [dict(pairs)] for an iterable of key/value pairs. *)
Definition of_pairs (pairs : list (string * V)) : t :=
  fold_left (fun d kv => set (fst kv) (snd kv) d) pairs [].
End Ops.
Arguments t : clear implicits.
End Dict.

#[local] Set Warnings "-register-all".

(** ** Python values

    The values a serializer hands to the renderers: [None], booleans,
    integers, strings, lists and dictionaries with string keys. *)

Inductive value : Type :=
| VNone
| VBool (b : bool)
| VInt (n : Z)
| VStr (s : string)
| VList (xs : list value)
| VDict (kvs : list (string * value)).

(** [isinstance(value, (dict, list))] *)
Definition is_dict_or_list (v : value) : bool :=
  match v with
  | VList _ | VDict _ => true
  | _ => false
  end.

(** *** [repr] and [str] on these values *)

Definition hex_digit (n : N) : ascii :=
  ascii_of_N (if (n <? 10)%N then 48 + n else 87 + n)%N.

Definition contains (c : ascii) (s : string) : bool :=
  existsb (Ascii.eqb c) (list_ascii_of_string s).

Definition dquote : ascii := "034"%char.

Definition repr_quote (s : string) : ascii :=
  if contains "'"%char s && negb (contains dquote s)
  then dquote else "'"%char.

Definition repr_char (q c : ascii) : string :=
  let n := N_of_ascii c in
  if Ascii.eqb c q || Ascii.eqb c "\"%char
  then String "\"%char (String c "")
  else if (n =? 9)%N then "\t"
  else if (n =? 10)%N then "\n"
  else if (n =? 13)%N then "\r"
  else if (n <? 32)%N || (n =? 127)%N
       then String "\"%char (String "x"%char
              (String (hex_digit (n / 16)) (String (hex_digit (n mod 16)) "")))
  else String c "".

Definition repr_str (s : string) : string :=
  let q := repr_quote s in
  String q (String.concat "" (map (repr_char q) (list_ascii_of_string s)))
  ++ String q "".

Definition repr_int (n : Z) : string := NilZero.string_of_int (Z.to_int n).

Fixpoint py_repr (v : value) : string :=
  match v with
  | VNone => "None"
  | VBool true => "True"
  | VBool false => "False"
  | VInt n => repr_int n
  | VStr s => repr_str s
  | VList xs => "[" ++ String.concat ", " (map py_repr xs) ++ "]"
  | VDict kvs =>
      "{" ++ String.concat ", "
               (map (fun kv : string * value => let (k, x) := kv in
                               repr_str k ++ ": " ++ py_repr x) kvs)
          ++ "}"
  end.

(** [str(v)] *)
Definition py_str (v : value) : string :=
  match v with
  | VStr s => s
  | _ => py_repr v
  end.

(** ** BaseExportRenderer *)

Definition dict : Type := Dict.t value.

(** An item of the data: a dictionary or any iterable of key/value pairs. *)
Definition record : Type := list (string * value).

Definition header : Type := list string.

(** Truth value of [header]: [None] and the empty list are false. *)
Definition header_truthy (h : option header) : bool :=
  match h with
  | Some (_ :: _) => true
  | _ => false
  end.

(** The key list of a true header. *)
Definition header_keys (h : option header) : header :=
  match h with
  | Some ks => ks
  | None => []
  end.

(** The collection handed to [tablize]: its items and, when the object has
    one, its [header] attribute ([Some None] is an attribute holding
    [None]). *)
Record dataset : Type := {
  ds_items : list record;
  ds_header : option (option header)
}.

(** [bool(data)] *)
Definition data_truthy (data : dataset) : bool :=
  match ds_items data with
  | [] => false
  | _ :: _ => true
  end.

(** [get_value], lines 127-132. *)
Definition get_value (item : dict) (key : string) : value :=
  let value := Dict.get_default key (VStr "") item in
  if is_dict_or_list value then VStr (py_str value) else value.

(** [flatten_data], lines 177-184: [dict(item)] for each item, in order.
    [dict] of a record cannot fail, so that flattening the items one at a
    time, as the generator does, or all at once gives the same dictionaries. *)
Definition flatten_data (items : list record) : list dict :=
  map Dict.of_pairs items.

(** *** The generator [tablize], lines 134-175

    A frame is the state of the generator between two resumptions.  A
    yielded row is the header list itself or a generator expression over
    the header, whose cells are computed when it is read, from the [item]
    the frame holds at that time. *)

Inductive row : Type :=
| HeaderRow (h : header)
| CellsOf (h : header).

Inductive frame : Type :=
| Fresh (data : dataset) (hdr : option header)
| AtHeader (hdr : header) (rest : list dict)
| AtRow (hdr : header) (item : dict) (rest : list dict)
| AtLoneHeader
| Finished (item : option dict).

Inductive signal : Type :=
| Yield (r : row)
| StopIteration
| Throw (e : exn).

Definition tablize (data : dataset) (hdr : option header) : frame :=
  Fresh data hdr.

Definition next (f : frame) : frame * signal :=
  match f with
  | Fresh data hdr =>
      let hdr :=
        if negb (header_truthy hdr) then
          match ds_header data with
          | Some h => h
          | None => hdr
          end
        else hdr in
      if data_truthy data then
        let items := flatten_data (ds_items data) in
        if negb (header_truthy hdr) then
          match items with
          | first_data :: rest =>
              let h := Dict.keys first_data in
              (AtHeader h (first_data :: rest), Yield (HeaderRow h))
          | [] => (Finished None, Throw RuntimeError)
          end
        else
        let h := header_keys hdr in
        (AtHeader h items, Yield (HeaderRow h))
      else if header_truthy hdr then
        (AtLoneHeader, Yield (HeaderRow (header_keys hdr)))
      else (Finished None, StopIteration)
  | AtHeader h [] => (Finished None, StopIteration)
  | AtHeader h (item :: rest) => (AtRow h item rest, Yield (CellsOf h))
  | AtRow h item [] => (Finished (Some item), StopIteration)
  | AtRow h _ (item :: rest) => (AtRow h item rest, Yield (CellsOf h))
  | AtLoneHeader => (Finished None, StopIteration)
  | Finished item => (Finished item, StopIteration)
  end.

(** The variable [item] of the frame, as the row expressions see it. *)
Definition frame_item (f : frame) : option dict :=
  match f with
  | AtRow _ item _ => Some item
  | Finished item => item
  | _ => None
  end.

(** Reading the cells of a yielded row while the generator is in frame [f]. *)
Definition read_row (f : frame) (r : row) : result (list value) :=
  match r with
  | HeaderRow h => Ok (map VStr h)
  | CellsOf h =>
      match h, frame_item f with
      | [], _ => Ok []
      | _ :: _, Some item => Ok (map (get_value item) h)
      | _ :: _, None => Raise NameError
      end
  end.

(** Number of resumptions left before the generator stops. *)
Definition resumptions (f : frame) : nat :=
  match f with
  | Fresh data _ => 2 + List.length (ds_items data)
  | AtHeader _ rest | AtRow _ _ rest => 1 + List.length rest
  | AtLoneHeader => 1
  | Finished _ => 0
  end.

(** [for row in table: acc = body(row, acc)], each row read as soon as it
    is yielded. *)
Fixpoint for_rows_fuel {A : Type} (fuel : nat)
    (body : list value -> A -> result A) (f : frame) (acc : A)
  : option (result A) :=
  match next f with
  | (_, StopIteration) => Some (Ok acc)
  | (_, Throw e) => Some (Raise e)
  | (f', Yield r) =>
      match fuel with
      | O => None
      | S fuel' =>
          match read_row f' r with
          | Raise e => Some (Raise e)
          | Ok cells =>
              match body cells acc with
              | Raise e => Some (Raise e)
              | Ok acc' => for_rows_fuel fuel' body f' acc'
              end
          end
      end
  end.

Definition for_rows {A : Type} (body : list value -> A -> result A)
    (f : frame) (acc : A) : result A :=
  match for_rows_fuel (resumptions f) body f acc with
  | Some r => r
  | None => Raise RuntimeError
  end.

(** [[list(row) for row in tablize(data, header)]] *)
Definition table_rows (data : dataset) (hdr : option header)
  : result (list (list value)) :=
  for_rows (fun cells acc => Ok (acc ++ [cells])%list) (tablize data hdr) [].

(** [rows = list(tablize(data, header))] first, the rows read afterwards. *)
Fixpoint exhaust (fuel : nat) (f : frame) : frame * list row :=
  match fuel with
  | O => (f, [])
  | S fuel' =>
      match next f with
      | (f', Yield r) => let (g, rs) := exhaust fuel' f' in (g, r :: rs)
      | (f', _) => (f', [])
      end
  end.

Definition rows_read_late (data : dataset) (hdr : option header)
  : list (result (list value)) :=
  let f := tablize data hdr in
  let (g, rs) := exhaust (resumptions f) f in
  map (read_row g) rs.

(** Lines 147-148 on their own: the header once the attribute of the data
    has been consulted. *)
Definition resolve_header (data : dataset) (hdr : option header)
  : option header :=
  if negb (header_truthy hdr) then
    match ds_header data with
    | Some h => h
    | None => hdr
    end
  else hdr.

(** A loop body run over a list of rows that are already read. *)
Fixpoint fold_rows {A : Type} (body : list value -> A -> result A)
    (rows : list (list value)) (acc : A) : result A :=
  match rows with
  | [] => Ok acc
  | cells :: rows' => acc' <- body cells acc ;; fold_rows body rows' acc'
  end.

(** The cells of the row of one flattened item. *)
Definition cells_of (h : header) (item : dict) : list value :=
  map (get_value item) h.

(** The rows of the table in closed form. *)
Definition expected_rows (data : dataset) (hdr : option header)
  : list (list value) :=
  let hdr := resolve_header data hdr in
  match flatten_data (ds_items data) with
  | [] => if header_truthy hdr then [map VStr (header_keys hdr)] else []
  | first_data :: rest =>
      let h := if header_truthy hdr then header_keys hdr
               else Dict.keys first_data in
      map VStr h :: map (cells_of h) (first_data :: rest)
  end.

(** ** The render entry points *)

(** The [data] argument of the export renderers: [None], a mapping (given
    by its entries that hold row collections; no other entry is ever read)
    or a row collection. *)
Inductive export_data : Type :=
| DataNone
| DataDict (entries : Dict.t dataset)
| DataRows (ds : dataset).

(** The literal [[]] substituted for a missing results key. *)
Definition empty_list : dataset := {| ds_items := []; ds_header := None |}.

(** Values of the [export_style] mapping. *)
Inductive style_value : Type :=
| Font (b : bool)
| PatternFill (fill_type start_color : string)
| Alignment (vertical : string)
| StyleInt (n : Z)
| StyleBool (b : bool)
| StyleStr (s : string).

Definition style : Type := Dict.t style_value.

Definition writer_opts : Type := Dict.t value.

(** The request and response objects of the renderer context.  [req_id] is
    [None] for a request without an [id] attribute; the response fields are
    the two attributes the JSON renderer assigns. *)
Record request : Type := { req_id : option value }.

Record response : Type := {
  status_code : Z;
  _rendered_data : option value
}.

(** [renderer_context]: each field is [None] when the key is absent. *)
Record context : Type := {
  ctx_writer_opts : option writer_opts;
  ctx_header : option (option header);
  ctx_encoding : option string;
  ctx_export_style : option style;
  ctx_request : option request;
  ctx_response : option response
}.

(** The empty mapping [{}]. *)
Definition empty_context : context :=
  {| ctx_writer_opts := None; ctx_header := None; ctx_encoding := None;
     ctx_export_style := None; ctx_request := None; ctx_response := None |}.

(** [renderer_context.get(key, default)] *)
Definition ctx_get {A : Type} (field : option A) (default : A) : A :=
  match field with
  | Some a => a
  | None => default
  end.

(** Class attributes of the two export renderers. *)
Record CSVRenderer : Type := {
  csv_header : option header;
  csv_writer_opts : option writer_opts;
  csv_data_key : string
}.

Definition CustomCSVRenderer : CSVRenderer :=
  {| csv_header := None; csv_writer_opts := None; csv_data_key := "results" |}.

Record XLSXRenderer : Type := {
  xlsx_header : option header;
  xlsx_data_key : string;
  xlsx_export_style : style
}.

Definition CustomXLSXRenderer : XLSXRenderer :=
  {| xlsx_header := None;
     xlsx_data_key := "results";
     xlsx_export_style :=
       [ ("header_font", Font true);
         ("header_fill", PatternFill "solid" "87CEFA");
         ("header_alignment", Alignment "center");
         ("header_height", StyleInt 18);
         ("freeze_header", StyleBool true);
         ("freeze_panes", StyleStr "A2") ] |}.

(** What the spreadsheet renderer sets on the active sheet. *)
Record cell_style : Type := {
  cell_font : style_value;
  cell_fill : style_value;
  cell_alignment : style_value
}.

Record worksheet : Type := {
  ws_rows : list (list value);
  ws_row1_styles : list cell_style;
  ws_row1_height : style_value;
  ws_freeze_panes : style_value;
  ws_print_title_rows : string
}.

(** [rest_framework.status.is_success] *)
Definition is_success (code : Z) : bool := (200 <=? code) && (code <=? 299).

Definition HTTP_200_OK : Z := 200.

Definition html_media_type : string := "text/html".

(** [seq[i]] for a list or the characters of a string. *)
Definition index {A : Type} (xs : list A) (i : Z) : result A :=
  let n := Z.of_nat (List.length xs) in
  let j := if i <? 0 then i + n else i in
  if (j <? 0) || (n <=? j) then Raise IndexError
  else match nth_error xs (Z.to_nat j) with
       | Some x => Ok x
       | None => Raise IndexError
       end.

(** [v[k]] *)
Definition getitem (v k : value) : result value :=
  match v with
  | VDict d =>
      match k with
      | VStr s => Dict.getitem s d
      | VList _ | VDict _ => Raise TypeError
      | _ => Raise KeyError
      end
  | VList xs =>
      match k with
      | VInt i => index xs i
      | VBool b => index xs (if b then 1 else 0)
      | _ => Raise TypeError
      end
  | VStr s =>
      let chars := map (fun c => VStr (String c "")) (list_ascii_of_string s) in
      match k with
      | VInt i => index chars i
      | VBool b => index chars (if b then 1 else 0)
      | _ => Raise TypeError
      end
  | _ => Raise TypeError
  end.

Section Renderers.

(** [unicodecsv]: [csv.writer(buffer, encoding=e, **opts)] gives a writer
    or raises; the writer is the bytes its [writerow] appends to the buffer
    for one row. *)
Variable csv_writer :
  string -> writer_opts -> result (list value -> result bytes).

(** [openpyxl]: the rows of the sheet after [sheet.append(row)], the number
    of cells of [sheet["1:1"]] for given rows, and the bytes
    [workbook.save] writes.  The values assigned as cell styles are stored
    as they are; what the later setters reject counts as raised by the
    save. *)
Variable sheet_append :
  list value -> list (list value) -> result (list (list value)).
Variable row1_cells : list (list value) -> nat.
Variable workbook_save : worksheet -> result bytes.

(** [orjson.dumps(payload, default=self.default, option=options)], the
    class attribute [options] and the flag [orjson.OPT_INDENT_2]. *)
Variable orjson_dumps : value -> Z -> result bytes.
Variable options : Z.
Variable OPT_INDENT_2 : Z.

(** Lines 206-210 and 251-255: the rows of a non-null payload. *)
Definition select_rows (data_key : string) (data : export_data) : dataset :=
  match data with
  | DataDict entries =>
      match Dict.getitem data_key entries with
      | Ok rows => rows
      | Raise _ => empty_list
      end
  | DataRows rows => rows
  | DataNone => empty_list
  end.

(** [CustomCSVRenderer.render], lines 198-223. *)
Definition render_csv (self : CSVRenderer) (data : export_data)
    (renderer_context : option context) : result bytes :=
  let renderer_context := ctx_get renderer_context empty_context in
  match data with
  | DataNone => Ok []
  | _ =>
      let data := select_rows (csv_data_key self) data in
      let opts :=
        ctx_get (ctx_writer_opts renderer_context)
                (ctx_get (csv_writer_opts self) []) in
      let hdr := ctx_get (ctx_header renderer_context) (csv_header self) in
      let encoding := ctx_get (ctx_encoding renderer_context) "gbk" in
      let table := tablize data hdr in
      writerow <- csv_writer encoding opts ;;
      for_rows
        (fun cells buffer =>
           line <- writerow cells ;;
           Ok (buffer ++ line)%list)
        table []
  end.

(** The loop over [sheet["1:1"]], lines 269-272. *)
Fixpoint style_row1 (cells : nat) (export_style : style)
  : result (list cell_style) :=
  match cells with
  | O => Ok []
  | S cells' =>
      font <- Dict.getitem "header_font" export_style ;;
      fill <- Dict.getitem "header_fill" export_style ;;
      alignment <- Dict.getitem "header_alignment" export_style ;;
      styled <- style_row1 cells' export_style ;;
      Ok ({| cell_font := font; cell_fill := fill;
             cell_alignment := alignment |} :: styled)
  end.

(** Lines 257-277: the sheet handed to [workbook.save]. *)
Definition build_sheet (self : XLSXRenderer) (data : dataset)
    (renderer_context : option context) : result worksheet :=
  match renderer_context with
  | None => Raise AttributeError
  | Some renderer_context =>
      let hdr := ctx_get (ctx_header renderer_context) (xlsx_header self) in
      let export_style :=
        ctx_get (ctx_export_style renderer_context)
                (xlsx_export_style self) in
      let table := tablize data hdr in
      rows <- for_rows sheet_append table [] ;;
      styles <- style_row1 (row1_cells rows) export_style ;;
      height <- Dict.getitem "header_height" export_style ;;
      let freeze_panes :=
        Dict.get_default "freeze_panes" (StyleBool true) export_style in
      Ok {| ws_rows := rows;
            ws_row1_styles := styles;
            ws_row1_height := height;
            ws_freeze_panes := freeze_panes;
            ws_print_title_rows := "1:1" |}
  end.

(** [CustomXLSXRenderer.render], lines 244-280. *)
Definition render_xlsx (self : XLSXRenderer) (data : export_data)
    (renderer_context : option context) : result bytes :=
  match data with
  | DataNone => Ok []
  | _ =>
      let data := select_rows (xlsx_data_key self) data in
      sheet <- build_sheet self data renderer_context ;;
      workbook_save sheet
  end.

(** Lines 86-94: the envelope before the error detail is looked at. *)
Definition envelope (renderer_context : context) (code : Z) (data : value)
  : dict :=
  let payload : dict := [] in
  let payload :=
    match ctx_request renderer_context with
    | Some {| req_id := Some id |} => Dict.set "request_id" id payload
    | _ => payload
    end in
  let payload := Dict.set "ret" (VInt code) payload in
  let payload := Dict.set "msg" (VStr "success") payload in
  match data with
  | VNone => payload
  | _ => Dict.set "data" data payload
  end.

(** Lines 96-105: the [try] statement. *)
Definition error_detail (data : value) (payload : dict) : result dict :=
  match getitem data (VStr "detail") with
  | Ok msg => Ok (Dict.pop "data" (Dict.set "msg" msg payload))
  | Raise KeyError => Ok (Dict.set "msg" (VStr "Invalid input.") payload)
  | Raise TypeError =>
      data <- getitem data (VInt 0) ;;
      msg <- getitem data (VStr "detail") ;;
      Ok (Dict.pop "data" (Dict.set "msg" msg payload))
  | Raise e => Raise e
  end.

(** [CustomJSONRenderer.render], lines 68-123: the returned bytes or the
    exception raised, and the response object as the call leaves it. *)
Definition render_json (data : value) (media_type : option string)
    (renderer_context : option context) : result bytes * option response :=
  match renderer_context with
  | None => (Raise AttributeError, None)
  | Some renderer_context =>
      match ctx_response renderer_context with
      | Some response =>
          let code := status_code response in
          let payload := envelope renderer_context code data in
          let payload :=
            if negb (is_success code) then error_detail data payload
            else Ok payload in
          match payload with
          | Raise e => (Raise e, Some response)
          | Ok payload =>
              let response :=
                {| status_code := HTTP_200_OK;
                   _rendered_data := _rendered_data response |} in
              let options :=
                match media_type with
                | Some m => if String.eqb m html_media_type
                            then Z.lor options OPT_INDENT_2 else options
                | None => options
                end in
              let response :=
                {| status_code := status_code response;
                   _rendered_data := Some (VDict payload) |} in
              (orjson_dumps (VDict payload) options, Some response)
          end
      | None =>
          match data with
          | VNone => (Ok [], None)
          | _ => (Raise AttributeError, None)
          end
      end
  end.

End Renderers.

(** The context the framework passes: a mapping with the response in it
    (and the request, when there is one). *)
Definition response_context (request : option request) (response : response)
  : context :=
  {| ctx_writer_opts := None; ctx_header := None; ctx_encoding := None;
     ctx_export_style := None; ctx_request := request;
     ctx_response := Some response |}.

(** [renderer_context.get("response")] where the context may be [None]. *)
Definition response_of (renderer_context : option context) : option response :=
  match renderer_context with
  | Some ctx => ctx_response ctx
  | None => None
  end.

(** The error detail of a payload in one of the two shapes the envelope
    reads: an object with a [detail] entry, or a list whose first element
    is such an object. *)
Definition detail_of (data : value) : option value :=
  match data with
  | VDict d => Dict.get "detail" d
  | VList (VDict d :: _) => Dict.get "detail" d
  | _ => None
  end.

(** The [request_id] entry of the envelope, when the request has an id. *)
Definition request_entry (ctx : context) : dict :=
  match ctx_request ctx with
  | Some {| req_id := Some id |} => [("request_id", id)]
  | _ => []
  end.

(** The item a frame holds once its remaining items are consumed. *)
Definition final_item (f : frame) (rest : list dict) : option dict :=
  last (map Some rest) (frame_item f).

(** The class attribute [options], lines 35-39:
    [functools.reduce(operator.or_, user_options, numpy | datetime)] for the
    flags listed under [ORJSON_RENDERER_OPTIONS] in the settings and the two
    flags [OPT_SERIALIZE_NUMPY] and [OPT_PASSTHROUGH_DATETIME]. *)
Definition class_options (user_options : list Z)
    (OPT_SERIALIZE_NUMPY OPT_PASSTHROUGH_DATETIME : Z) : Z :=
  fold_left Z.lor user_options
            (Z.lor OPT_SERIALIZE_NUMPY OPT_PASSTHROUGH_DATETIME).

(** Lines 117-119 on their own: the option handed to the serializer. *)
Definition served_options (options OPT_INDENT_2 : Z)
    (media_type : option string) : Z :=
  match media_type with
  | Some m => if String.eqb m html_media_type
              then Z.lor options OPT_INDENT_2 else options
  | None => options
  end.

(** The context with the response object in the state [response]. *)
Definition with_response (ctx : context) (response : response) : context :=
  {| ctx_writer_opts := ctx_writer_opts ctx;
     ctx_header := ctx_header ctx;
     ctx_encoding := ctx_encoding ctx;
     ctx_export_style := ctx_export_style ctx;
     ctx_request := ctx_request ctx;
     ctx_response := Some response |}.

(** The context with [export_style] as its style override. *)
Definition with_export_style (ctx : context) (export_style : style)
  : context :=
  {| ctx_writer_opts := ctx_writer_opts ctx;
     ctx_header := ctx_header ctx;
     ctx_encoding := ctx_encoding ctx;
     ctx_export_style := Some export_style;
     ctx_request := ctx_request ctx;
     ctx_response := ctx_response ctx |}.

(** The [data] entry of the envelope: absent for [None]. *)
Definition data_entry (data : value) : dict :=
  match data with
  | VNone => []
  | _ => [("data", data)]
  end.

(** ** Stand-ins for the collaborators

    Small executable instances of the section variables, on which the
    model is run in the examples.  They handle ASCII text only and are not
    the libraries themselves. *)

Definition is_ascii_text (s : string) : bool :=
  forallb (fun c => (N_of_ascii c <? 128)%N) (list_ascii_of_string s).

Definition ascii_bytes (s : string) : result bytes :=
  if is_ascii_text s then Ok (list_byte_of_string s)
  else Raise (CollaboratorError "UnicodeEncodeError").

(** One CSV field: quoted when it holds a comma, a quote or a line break. *)
Definition csv_field (v : value) : string :=
  let text := match v with VNone => "" | _ => py_str v end in
  let q := String dquote "" in
  if contains ","%char text || contains dquote text
     || contains "010"%char text || contains "013"%char text
  then q ++ String.concat ""
              (map (fun c => if Ascii.eqb c dquote then q ++ q
                             else String c "")
                   (list_ascii_of_string text))
         ++ q
  else text.

Definition crlf : string := String "013"%char (String "010"%char "").

Definition ascii_writerow (cells : list value) : result bytes :=
  ascii_bytes (String.concat "," (map csv_field cells) ++ crlf).

(** A CSV writer for the encodings that agree with ASCII on ASCII text; it
    takes no options. *)
Definition ascii_writer (encoding : string) (opts : writer_opts)
  : result (list value -> result bytes) :=
  match opts with
  | _ :: _ => Raise TypeError
  | [] =>
      if existsb (String.eqb encoding) ["gbk"; "utf-8"; "ascii"]
      then Ok ascii_writerow
      else Raise (CollaboratorError "LookupError")
  end.

(** A sheet that takes every row. *)
Definition plain_append (cells : list value) (rows : list (list value))
  : result (list (list value)) :=
  Ok (rows ++ [cells])%list.

(** [sheet["1:1"]] spans the used columns, and one column on a sheet
    without cells. *)
Definition used_row1_cells (rows : list (list value)) : nat :=
  Nat.max 1 (list_max (map (@List.length value) rows)).

(** Instead of the xlsx container: the rows of the sheet as CSV text. *)
Definition plain_save (sheet : worksheet) : result bytes :=
  fold_rows (fun cells buffer =>
               line <- ascii_writerow cells ;;
               Ok (buffer ++ line)%list)
            (ws_rows sheet) [].

(** Compact JSON text of a value. *)
Definition json_char (c : ascii) : string :=
  let n := N_of_ascii c in
  if Ascii.eqb c dquote || Ascii.eqb c "\"%char
  then String "\"%char (String c "")
  else if (n =? 10)%N then "\n"
  else if (n =? 13)%N then "\r"
  else if (n =? 9)%N then "\t"
  else if (n <? 32)%N
       then "\u00" ++ String (hex_digit (n / 16))
                        (String (hex_digit (n mod 16)) "")
  else String c "".

Definition json_string (s : string) : string :=
  String dquote (String.concat "" (map json_char (list_ascii_of_string s)))
  ++ String dquote "".

Fixpoint json_text (v : value) : string :=
  match v with
  | VNone => "null"
  | VBool true => "true"
  | VBool false => "false"
  | VInt n => repr_int n
  | VStr s => json_string s
  | VList xs => "[" ++ String.concat "," (map json_text xs) ++ "]"
  | VDict kvs =>
      "{" ++ String.concat ","
               (map (fun kv : string * value =>
                       let (k, x) := kv in json_string k ++ ":" ++ json_text x)
                    kvs)
          ++ "}"
  end.

Definition json_dumps (payload : value) (option : Z) : result bytes :=
  ascii_bytes (json_text payload).

(** * Properties *)

(** ** Dictionaries *)

Module DictFacts.
Section Facts.
Context {V : Type}.
Implicit Types (d : Dict.t V) (k : string) (v : V).

Lemma set_fresh k v d :
  ~ In k (Dict.keys d) -> Dict.set k v d = (d ++ [(k, v)])%list.
Proof.
  induction d as [|[k' v'] d IH]; simpl; auto.
  intros Hnotin. destruct (String.eqb_spec k k') as [->|_].
  - exfalso. apply Hnotin. now left.
  - f_equal. apply IH. intros Hin. apply Hnotin. now right.
Qed.

Lemma of_pairs_from d pairs :
  NoDup (Dict.keys (d ++ pairs)%list) ->
  fold_left (fun d kv => Dict.set (fst kv) (snd kv) d) pairs d
  = (d ++ pairs)%list.
Proof.
  revert d. induction pairs as [|[k v] pairs IH]; intros d Hnd; simpl.
  - now rewrite app_nil_r.
  - assert (Hd : (d ++ (k, v) :: pairs = (d ++ [(k, v)]) ++ pairs)%list)
      by now rewrite <- app_assoc.
    rewrite set_fresh.
    + rewrite Hd. apply IH. now rewrite <- Hd.
    + unfold Dict.keys in *. rewrite map_app in Hnd. simpl in Hnd.
      apply NoDup_remove_2 in Hnd. intros Hin. apply Hnd.
      apply in_or_app. now left.
Qed.

(** [dict(d)] of a dictionary [d] is a copy of [d]. *)
Lemma of_pairs_dict d : NoDup (Dict.keys d) -> Dict.of_pairs d = d.
Proof. intros Hnd. unfold Dict.of_pairs. now rewrite of_pairs_from. Qed.
End Facts.
End DictFacts.

(** ** The table *)

Lemma read_row_cells (h : header) (item : dict) (rest : list dict) :
  read_row (AtRow h item rest) (CellsOf h) = Ok (cells_of h item).
Proof. destruct h; reflexivity. Qed.

(** Resuming the generator inside its loop: the remaining items give one
    row each, in order. *)
Lemma for_rows_fuel_loop {A : Type} (body : list value -> A -> result A)
    (h : header) (rest : list dict) :
  forall (fuel : nat) (f : frame) (acc : A),
    (List.length rest <= fuel)%nat ->
    f = AtHeader h rest \/ (exists item, f = AtRow h item rest) ->
    for_rows_fuel fuel body f acc
    = Some (fold_rows body (map (cells_of h) rest) acc).
Proof.
  induction rest as [|item rest IH]; intros fuel f acc Hfuel Hf.
  - destruct Hf as [->|[item ->]]; destruct fuel; reflexivity.
  - destruct fuel as [|fuel]; [simpl in Hfuel; lia|].
    assert (Hstep : next f = (AtRow h item rest, Yield (CellsOf h)))
      by (destruct Hf as [->|[item' ->]]; reflexivity).
    simpl. rewrite Hstep, read_row_cells. unfold bind.
    destruct (body (cells_of h item) acc) as [acc'|e]; [|reflexivity].
    apply IH; [simpl in Hfuel; lia|]. right. now exists item.
Qed.

Lemma next_fresh (data : dataset) (hdr : option header) :
  next (Fresh data hdr)
  = let hdr := resolve_header data hdr in
    match flatten_data (ds_items data) with
    | [] => if header_truthy hdr
            then (AtLoneHeader, Yield (HeaderRow (header_keys hdr)))
            else (Finished None, StopIteration)
    | first_data :: rest =>
        let h := if header_truthy hdr then header_keys hdr
                 else Dict.keys first_data in
        (AtHeader h (first_data :: rest), Yield (HeaderRow h))
    end.
Proof.
  cbn [next]. fold (resolve_header data hdr).
  unfold data_truthy, flatten_data.
  destruct (ds_items data) as [|r0 rs]; cbn [map]; [reflexivity|].
  destruct (header_truthy (resolve_header data hdr)); reflexivity.
Qed.

Lemma for_rows_fuel_S {A : Type} (body : list value -> A -> result A)
    (fuel : nat) (f : frame) (acc : A) :
  for_rows_fuel (S fuel) body f acc
  = match next f with
    | (_, StopIteration) => Some (Ok acc)
    | (_, Throw e) => Some (Raise e)
    | (f', Yield r) =>
        match read_row f' r with
        | Raise e => Some (Raise e)
        | Ok cells =>
            match body cells acc with
            | Raise e => Some (Raise e)
            | Ok acc' => for_rows_fuel fuel body f' acc'
            end
        end
    end.
Proof. reflexivity. Qed.

(** The loop [for row in tablize(data, header)] always runs to the end of
    the generator, over the rows of [expected_rows]. *)
Lemma for_rows_tablize {A : Type} (body : list value -> A -> result A)
    (data : dataset) (hdr : option header) (acc : A) :
  for_rows body (tablize data hdr) acc
  = fold_rows body (expected_rows data hdr) acc.
Proof.
  unfold for_rows, tablize, expected_rows.
  change (resumptions (Fresh data hdr))
    with (S (S (List.length (ds_items data)))).
  rewrite for_rows_fuel_S, next_fresh. cbv zeta.
  assert (Hlen : List.length (flatten_data (ds_items data))
                 = List.length (ds_items data))
    by apply length_map.
  destruct (flatten_data (ds_items data)) as [|first_data rest].
  - destruct (header_truthy (resolve_header data hdr)); [|reflexivity].
    cbn [read_row fold_rows bind].
    destruct (body _ acc); reflexivity.
  - set (h := if header_truthy (resolve_header data hdr) then _ else _).
    cbn [read_row fold_rows bind].
    destruct (body (map VStr h) acc) as [acc'|e]; [|reflexivity].
    rewrite (for_rows_fuel_loop body h (first_data :: rest)
               _ (AtHeader h (first_data :: rest)));
      [reflexivity|rewrite Hlen; lia|now left].
Qed.

Lemma fold_rows_collect (rows acc : list (list value)) :
  fold_rows (fun cells acc => Ok (acc ++ [cells])%list) rows acc
  = Ok (acc ++ rows)%list.
Proof.
  revert acc. induction rows as [|r rows IH]; intros acc; simpl.
  - now rewrite app_nil_r.
  - rewrite IH, <- app_assoc. reflexivity.
Qed.

Lemma table_rows_expected (data : dataset) (hdr : option header) :
  table_rows data hdr = Ok (expected_rows data hdr).
Proof.
  unfold table_rows. now rewrite for_rows_tablize, fold_rows_collect.
Qed.

(** Each yield brings the generator closer to its end, and a generator that
    has stopped stays stopped. *)
Lemma next_yield_decreases (f f' : frame) (r : row) :
  next f = (f', Yield r) -> (resumptions f' < resumptions f)%nat.
Proof.
  destruct f as [data hdr|h rest|h item rest| |item].
  - rewrite next_fresh. cbv zeta.
    assert (Hlen : List.length (flatten_data (ds_items data))
                   = List.length (ds_items data))
      by apply length_map.
    destruct (flatten_data (ds_items data)) as [|first_data rest].
    + destruct (header_truthy _); intros [= <- _]; simpl; lia.
    + intros [= <- _]. simpl in *. lia.
  - destruct rest; intros [= <- _]; simpl; lia.
  - destruct rest; intros [= <- _]; simpl; lia.
  - discriminate.
  - discriminate.
Qed.

Lemma next_stopped (f : frame) :
  match next f with
  | (_, Yield _) => True
  | (f', _) => resumptions f' = 0%nat
  end.
Proof.
  destruct f as [data hdr|h rest|h item rest| |item].
  - rewrite next_fresh. cbv zeta.
    destruct (flatten_data (ds_items data)) as [|first_data rest];
      [destruct (header_truthy _)|]; simpl; auto.
  - destruct rest; simpl; auto.
  - destruct rest; simpl; auto.
  - reflexivity.
  - reflexivity.
Qed.

Lemma exhaust_finished (fuel : nat) :
  forall f : frame, (resumptions f <= fuel)%nat ->
  resumptions (fst (exhaust fuel f)) = 0%nat.
Proof.
  induction fuel as [|fuel IH]; intros f Hf; [simpl in *; lia|].
  simpl. destruct (next f) as [f' s] eqn:Hnext.
  destruct s as [r| |e].
  - specialize (IH f'). apply next_yield_decreases in Hnext.
    destruct (exhaust fuel f') as [g rs]. apply IH. lia.
  - pose proof (next_stopped f) as Hs. now rewrite Hnext in Hs.
  - pose proof (next_stopped f) as Hs. now rewrite Hnext in Hs.
Qed.

(** Rows read only after the whole table was drawn from the generator all
    show the item the generator ended on: the row expressions look [item]
    up when they are read.  Both renderers read each row as it is yielded,
    which is the reading [table_rows] and [for_rows] model. *)
Example rows_read_late_share_item :
  let data :=
    {| ds_items := [ [("a", VInt 1)]; [("a", VInt 2)]; [("a", VInt 3)] ];
       ds_header := None |} in
  table_rows data None
  = Ok [ [VStr "a"]; [VInt 1]; [VInt 2]; [VInt 3] ]
  /\ rows_read_late data None
     = [ Ok [VStr "a"]; Ok [VInt 3]; Ok [VInt 3]; Ok [VInt 3] ].
Proof. split; reflexivity. Qed.

(** C1. For a non-empty sequence of records, no header argument and no
    header attribute on the data, the rows read from [tablize] are: first
    the keys of the first flattened record, in its key order; then one row
    per input record, in input order, whose cells are the record's values
    at the header keys, in header order.  Hence there are as many data rows
    as records and every row is as long as the header.  When the first
    record is a dictionary (its keys are distinct) the header is its key
    list. *)
Theorem tablize_infers_header (data : dataset) (hdr : option header)
    (first_item : record) (others : list record) :
  ds_items data = first_item :: others ->
  ds_header data = None ->
  header_truthy hdr = false ->
  let h := Dict.keys (Dict.of_pairs first_item) in
  let rows :=
    map (fun item => map (get_value (Dict.of_pairs item)) h) (ds_items data) in
  table_rows data hdr = Ok (map VStr h :: rows)
  /\ List.length rows = List.length (ds_items data)
  /\ Forall (fun cells => List.length cells = List.length h)
            (map VStr h :: rows)
  /\ (forall (i : nat) (item : record),
        nth_error (ds_items data) i = Some item ->
        nth_error rows i = Some (map (get_value (Dict.of_pairs item)) h))
  /\ (NoDup (map fst first_item) -> h = map fst first_item).
Proof.
  intros Hitems Hattr Hhdr h rows.
  assert (Hres : header_truthy (resolve_header data hdr) = false).
  { unfold resolve_header. now rewrite Hhdr, Hattr. }
  repeat split.
  - rewrite table_rows_expected. unfold expected_rows, flatten_data.
    rewrite Hres. subst rows h. rewrite Hitems. cbn [map].
    unfold cells_of. now rewrite map_map.
  - subst rows. apply length_map.
  - constructor; [apply length_map|].
    subst rows. apply Forall_map, Forall_forall. intros item _.
    apply length_map.
  - intros i item Hnth. subst rows.
    exact (map_nth_error
             (fun it : record => map (get_value (Dict.of_pairs it)) h)
             i (ds_items data) Hnth).
  - intros Hdict. subst h. now rewrite DictFacts.of_pairs_dict.
Qed.

Lemma tablize_infers_header_witness :
  table_rows
    {| ds_items := [ [("a", VInt 1); ("b", VInt 2)];
                     [("b", VInt 4); ("c", VInt 5)] ];
       ds_header := None |} None
  = Ok [ [VStr "a"; VStr "b"]; [VInt 1; VInt 2]; [VStr ""; VInt 4] ].
Proof.
  exact (proj1 (tablize_infers_header
                  {| ds_items := [ [("a", VInt 1); ("b", VInt 2)];
                                   [("b", VInt 4); ("c", VInt 5)] ];
                     ds_header := None |} None
                  [("a", VInt 1); ("b", VInt 2)]
                  [ [("b", VInt 4); ("c", VInt 5)] ]
                  eq_refl eq_refl eq_refl)).
Defined.


(** C4 (amended). On an empty dataset the table has no row at all when
    the header, after the attribute of the data was consulted, is [None] or
    the empty list, and exactly one row, the header, when it is a non-empty
    list. *)
Theorem tablize_empty_data (data : dataset) (hdr : option header) :
  ds_items data = [] ->
  table_rows data hdr
  = Ok match resolve_header data hdr with
       | Some (key :: keys) => [map VStr (key :: keys)]
       | _ => []
       end.
Proof.
  intros Hitems. rewrite table_rows_expected.
  unfold expected_rows, flatten_data. rewrite Hitems. cbn [map].
  destruct (resolve_header data hdr) as [[|key keys]|]; reflexivity.
Qed.

Lemma tablize_empty_data_witness :
  table_rows empty_list (Some ["a"; "b"]) = Ok [ [VStr "a"; VStr "b"] ]
  /\ table_rows empty_list None = Ok [].
Proof.
  split.
  - exact (tablize_empty_data empty_list (Some ["a"; "b"]) eq_refl).
  - exact (tablize_empty_data empty_list None eq_refl).
Defined.

(** C4, as first stated, fails for the empty header list: it is a header
    handed to [tablize], and the table has no row instead of the one row
    [[]]. *)
Lemma tablize_empty_header_list :
  table_rows empty_list (Some []) = Ok []
  /\ table_rows empty_list (Some []) <> Ok [map VStr []].
Proof. split; [reflexivity|discriminate]. Qed.

(** ** The export renderers *)

Lemma select_rows_missing_key (data_key : string) (entries : Dict.t dataset) :
  Dict.get data_key entries = None ->
  select_rows data_key (DataDict entries) = empty_list.
Proof. intros H. unfold select_rows, Dict.getitem. now rewrite H. Qed.

(** The loop over the cells of row 1 gives every cell the same three
    values, or fails on the first cell when one of the keys is missing. *)
Lemma style_row1_spec (cells : nat) (export_style : style) :
  style_row1 cells export_style
  = match cells with
    | O => Ok []
    | S _ =>
        match Dict.get "header_font" export_style,
              Dict.get "header_fill" export_style,
              Dict.get "header_alignment" export_style with
        | Some font, Some fill, Some alignment =>
            Ok (repeat {| cell_font := font; cell_fill := fill;
                          cell_alignment := alignment |} cells)
        | _, _, _ => Raise KeyError
        end
    end.
Proof.
  induction cells as [|cells IH]; [reflexivity|].
  cbn [style_row1]. rewrite IH. unfold Dict.getitem.
  destruct (Dict.get "header_font" export_style) as [font|]; [|reflexivity].
  destruct (Dict.get "header_fill" export_style) as [fill|]; [|reflexivity].
  destruct (Dict.get "header_alignment" export_style) as [alignment|];
    [|reflexivity].
  destruct cells; reflexivity.
Qed.

Section RendererFacts.

Variable csv_writer :
  string -> writer_opts -> result (list value -> result bytes).
Variable sheet_append :
  list value -> list (list value) -> result (list (list value)).
Variable row1_cells : list (list value) -> nat.
Variable workbook_save : worksheet -> result bytes.

(** The CSV render of non-null data: a writer is made with the encoding and
    the options drawn from the context, and the rows of the table are
    written with it one after the other. *)
Lemma render_csv_rows (self : CSVRenderer) (data : export_data)
    (renderer_context : option context) :
  data <> DataNone ->
  let ctx := ctx_get renderer_context empty_context in
  render_csv csv_writer self data renderer_context
  = (writerow <- csv_writer
                   (ctx_get (ctx_encoding ctx) "gbk")
                   (ctx_get (ctx_writer_opts ctx)
                            (ctx_get (csv_writer_opts self) [])) ;;
     fold_rows
       (fun cells buffer => line <- writerow cells ;; Ok (buffer ++ line)%list)
       (expected_rows (select_rows (csv_data_key self) data)
                      (ctx_get (ctx_header ctx) (csv_header self)))
       []).
Proof.
  intros Hdata ctx. unfold render_csv.
  destruct data; [congruence| |]; fold ctx;
    destruct (csv_writer _ _); cbn [bind];
    now rewrite ?for_rows_tablize.
Qed.

(** The sheet built from non-null data under a context. *)
Lemma build_sheet_spec (self : XLSXRenderer) (data : dataset)
    (ctx : context) :
  let export_style :=
    ctx_get (ctx_export_style ctx) (xlsx_export_style self) in
  build_sheet sheet_append row1_cells self data (Some ctx)
  = (rows <- fold_rows sheet_append
               (expected_rows data
                  (ctx_get (ctx_header ctx) (xlsx_header self))) [] ;;
     styles <- style_row1 (row1_cells rows) export_style ;;
     height <- Dict.getitem "header_height" export_style ;;
     Ok {| ws_rows := rows;
           ws_row1_styles := styles;
           ws_row1_height := height;
           ws_freeze_panes :=
             Dict.get_default "freeze_panes" (StyleBool true) export_style;
           ws_print_title_rows := "1:1" |}).
Proof.
  intros export_style. unfold build_sheet.
  now rewrite for_rows_tablize.
Qed.

(** C3 (amended). The style mapping is chosen as a whole: the
    [export_style] of the context when the context has one, the class
    attribute otherwise.  Once the rows of the table are on the sheet, the
    height, font, fill and alignment of the header row are read from the
    chosen mapping alone: a missing [header_height] is a [KeyError], and so
    is a missing font, fill or alignment as soon as row 1 has a cell;
    nothing is taken from the defaults once an override is given.
    [freeze_panes] is the chosen mapping's entry when it has one. *)
Theorem export_style_is_chosen_whole (self : XLSXRenderer) (data : dataset)
    (ctx : context) :
  let chosen := ctx_get (ctx_export_style ctx) (xlsx_export_style self) in
  exists (table : list (list value)) (freeze_panes : style_value),
    table_rows data (ctx_get (ctx_header ctx) (xlsx_header self)) = Ok table
    /\ (forall v, Dict.get "freeze_panes" chosen = Some v -> freeze_panes = v)
    /\ build_sheet sheet_append row1_cells self data (Some ctx)
       = (rows <- fold_rows sheet_append table [] ;;
          match Dict.get "header_height" chosen,
                row1_cells rows,
                Dict.get "header_font" chosen,
                Dict.get "header_fill" chosen,
                Dict.get "header_alignment" chosen with
          | Some height, O, _, _, _ =>
              Ok {| ws_rows := rows;
                    ws_row1_styles := [];
                    ws_row1_height := height;
                    ws_freeze_panes := freeze_panes;
                    ws_print_title_rows := "1:1" |}
          | Some height, S n, Some font, Some fill, Some alignment =>
              Ok {| ws_rows := rows;
                    ws_row1_styles :=
                      repeat {| cell_font := font; cell_fill := fill;
                                cell_alignment := alignment |} (S n);
                    ws_row1_height := height;
                    ws_freeze_panes := freeze_panes;
                    ws_print_title_rows := "1:1" |}
          | _, _, _, _, _ => Raise KeyError
          end).
Proof.
  intros chosen.
  exists (expected_rows data (ctx_get (ctx_header ctx) (xlsx_header self))).
  exists (Dict.get_default "freeze_panes" (StyleBool true) chosen).
  split; [apply table_rows_expected|]. split.
  - intros v Hv. unfold Dict.get_default. now rewrite Hv.
  - rewrite build_sheet_spec. fold chosen.
    destruct (fold_rows sheet_append _ []) as [rows|e]; [|reflexivity].
    cbn [bind]. rewrite style_row1_spec. unfold Dict.getitem.
    destruct (row1_cells rows) as [|n];
      destruct (Dict.get "header_height" chosen);
      destruct (Dict.get "header_font" chosen);
      destruct (Dict.get "header_fill" chosen);
      destruct (Dict.get "header_alignment" chosen); reflexivity.
Qed.

(** C5. For both export renderers a null payload renders to the empty
    byte string, whatever the context, and a mapping without the results
    key renders exactly as the empty list does.  From such a mapping the
    CSV renderer, once the writer is made, returns no bytes when there is
    no header and otherwise what the writer makes of the header row; under
    a context without style override the spreadsheet renderer of the
    default style puts at most the header row on the sheet and hands the
    sheet to the workbook.  The renderers raise nothing of their own. *)
Theorem missing_data_is_recovered (csv : CSVRenderer) (xlsx : XLSXRenderer)
    (entries : Dict.t dataset) (renderer_context : option context) :
  Dict.get (csv_data_key csv) entries = None ->
  Dict.get (xlsx_data_key xlsx) entries = None ->
  let ctx := ctx_get renderer_context empty_context in
  let csv_hdr := ctx_get (ctx_header ctx) (csv_header csv) in
  let xlsx_hdr := ctx_get (ctx_header ctx) (xlsx_header xlsx) in
  let header_row (hdr : option header) : list (list value) :=
    if header_truthy hdr then [map VStr (header_keys hdr)] else [] in
  (render_csv csv_writer csv DataNone renderer_context = Ok []
   /\ render_xlsx sheet_append row1_cells workbook_save xlsx DataNone
        renderer_context
      = Ok [])
  /\ (render_csv csv_writer csv (DataDict entries) renderer_context
      = render_csv csv_writer csv (DataRows empty_list) renderer_context
      /\ render_xlsx sheet_append row1_cells workbook_save xlsx
           (DataDict entries) renderer_context
         = render_xlsx sheet_append row1_cells workbook_save xlsx
             (DataRows empty_list) renderer_context)
  /\ render_csv csv_writer csv (DataDict entries) renderer_context
     = (writerow <- csv_writer
                      (ctx_get (ctx_encoding ctx) "gbk")
                      (ctx_get (ctx_writer_opts ctx)
                               (ctx_get (csv_writer_opts csv) [])) ;;
        if header_truthy csv_hdr
        then writerow (map VStr (header_keys csv_hdr))
        else Ok [])
  /\ (renderer_context <> None ->
      ctx_export_style ctx = None ->
      xlsx_export_style xlsx = xlsx_export_style CustomXLSXRenderer ->
      render_xlsx sheet_append row1_cells workbook_save xlsx
        (DataDict entries) renderer_context
      = (rows <- fold_rows sheet_append (header_row xlsx_hdr) [] ;;
         workbook_save
           {| ws_rows := rows;
              ws_row1_styles :=
                repeat {| cell_font := Font true;
                          cell_fill := PatternFill "solid" "87CEFA";
                          cell_alignment := Alignment "center" |}
                       (row1_cells rows);
              ws_row1_height := StyleInt 18;
              ws_freeze_panes := StyleStr "A2";
              ws_print_title_rows := "1:1" |})).
Proof.
  intros Hcsv Hxlsx ctx csv_hdr xlsx_hdr header_row.
  assert (Hempty : forall hdr, expected_rows empty_list hdr = header_row hdr).
  { intros hdr. unfold expected_rows, resolve_header, header_row.
    cbn [empty_list ds_items ds_header flatten_data map].
    destruct (header_truthy hdr) eqn:E; cbn [negb]; now rewrite E. }
  split; [split; reflexivity|]. split; [split|split].
  - unfold render_csv. now rewrite (select_rows_missing_key _ _ Hcsv).
  - unfold render_xlsx. now rewrite (select_rows_missing_key _ _ Hxlsx).
  - rewrite render_csv_rows by discriminate.
    rewrite (select_rows_missing_key _ _ Hcsv), Hempty.
    fold ctx. fold csv_hdr. unfold header_row.
    destruct (csv_writer _ _) as [writerow|e]; [|reflexivity].
    cbn [bind].
    destruct (header_truthy csv_hdr); [|reflexivity].
    cbn [fold_rows]. unfold bind.
    destruct (writerow _); reflexivity.
  - intros Hctx Hstyle Hdefault. unfold render_xlsx.
    rewrite (select_rows_missing_key _ _ Hxlsx).
    destruct renderer_context as [c|]; [|congruence].
    rewrite build_sheet_spec.
    change (ctx_get (Some c) empty_context) with c in *.
    subst ctx. rewrite Hstyle, Hdefault, Hempty. fold xlsx_hdr.
    cbn [ctx_get].
    destruct (fold_rows sheet_append _ []) as [rows|e]; [|reflexivity].
    cbn [bind]. rewrite style_row1_spec.
    destruct (row1_cells rows); reflexivity.
Qed.

(** C8. The bytes of a CSV render of non-null data are the lines which the
    writer made for the encoding of the context gives for the rows of the
    table; the encoding is [gbk] when the context names none. *)
Theorem csv_encoding_defaults_to_gbk (self : CSVRenderer)
    (data : export_data) (renderer_context : option context) :
  data <> DataNone ->
  let ctx := ctx_get renderer_context empty_context in
  let encoding :=
    match ctx_encoding ctx with
    | Some chosen => chosen
    | None => "gbk"
    end in
  exists (rows : list (list value)) (opts : writer_opts),
    table_rows (select_rows (csv_data_key self) data)
               (ctx_get (ctx_header ctx) (csv_header self)) = Ok rows
    /\ render_csv csv_writer self data renderer_context
       = (writerow <- csv_writer encoding opts ;;
          fold_rows
            (fun cells buffer =>
               line <- writerow cells ;; Ok (buffer ++ line)%list)
            rows []).
Proof.
  intros Hdata ctx encoding.
  eexists. eexists. split; [apply table_rows_expected|].
  now rewrite render_csv_rows.
Qed.

(** C9. The CSV renderer treats a null context as the empty mapping,
    whatever the data; the spreadsheet renderer given data that is not null
    and a null context raises [AttributeError], and returns the empty byte
    string for null data without looking at the context. *)
Theorem null_context_tolerance (csv : CSVRenderer) (xlsx : XLSXRenderer)
    (data : export_data) :
  data <> DataNone ->
  (forall any : export_data,
      render_csv csv_writer csv any None
      = render_csv csv_writer csv any (Some empty_context))
  /\ render_xlsx sheet_append row1_cells workbook_save xlsx data None
     = Raise AttributeError
  /\ render_xlsx sheet_append row1_cells workbook_save xlsx DataNone None
     = Ok [].
Proof.
  intros Hdata. repeat split.
  destruct data; [congruence| |]; reflexivity.
Qed.

End RendererFacts.

(** ** The JSON envelope *)

Lemma index_first {A : Type} (x : A) (xs : list A) : index (x :: xs) 0 = Ok x.
Proof.
  unfold index. cbn [List.length].
  replace (0 <? 0) with false by reflexivity.
  replace (Z.of_nat (S (List.length xs)) <=? 0) with false
    by (symmetry; apply Z.leb_gt; lia).
  reflexivity.
Qed.

Lemma detail_of_not_none (data detail : value) :
  detail_of data = Some detail -> data <> VNone.
Proof. intros H ->. discriminate. Qed.

(** Extraction succeeds on exactly the two shapes of [detail_of]. *)
Lemma error_detail_found (data detail : value) (payload : dict) :
  detail_of data = Some detail ->
  error_detail data payload
  = Ok (Dict.pop "data" (Dict.set "msg" detail payload)).
Proof.
  intros H. unfold error_detail.
  destruct data as [| | | |xs|d]; try discriminate.
  - destruct xs as [|[| | | | |d] xs]; try discriminate.
    cbn [getitem]. rewrite index_first. cbn [bind getitem].
    unfold Dict.getitem. cbn [detail_of] in H. now rewrite H.
  - cbn [getitem]. unfold Dict.getitem. cbn [detail_of] in H. now rewrite H.
Qed.

Section EnvelopeFacts.

Variable orjson_dumps : value -> Z -> result bytes.
Variable options : Z.
Variable OPT_INDENT_2 : Z.

(** C6 (amended). When the response status is not a success code and the
    payload carries a detail, as an object or as the first element of a
    list, the envelope handed to the serializer has the detail as [msg]
    and no [data] entry, and the status code of the response is set to
    200. *)
Theorem error_envelope_takes_detail (data detail : value)
    (media_type : option string) (ctx : context) (response : response) :
  ctx_response ctx = Some response ->
  is_success (status_code response) = false ->
  detail_of data = Some detail ->
  let payload :=
    (request_entry ctx
     ++ [("ret", VInt (status_code response)); ("msg", detail)])%list in
  Dict.get "data" payload = None
  /\ exists served : Z,
       render_json orjson_dumps options OPT_INDENT_2
                   data media_type (Some ctx)
       = (orjson_dumps (VDict payload) served,
          Some {| status_code := 200;
                  _rendered_data := Some (VDict payload) |}).
Proof.
  intros Hresp Hcode Hdetail payload.
  assert (Hpayload :
            error_detail data (envelope ctx (status_code response) data)
            = Ok payload).
  { rewrite (error_detail_found _ _ _ Hdetail).
    pose proof (detail_of_not_none _ _ Hdetail) as Hdata.
    subst payload. unfold envelope, request_entry.
    destruct (ctx_request ctx) as [[[id|]]|];
      destruct data; try congruence; reflexivity. }
  split.
  - subst payload. unfold request_entry.
    destruct (ctx_request ctx) as [[[id|]]|]; reflexivity.
  - unfold render_json. rewrite Hresp. cbv zeta. rewrite Hcode.
    cbn [negb]. rewrite Hpayload. eexists. reflexivity.
Qed.

(** C7, at the failing input: an error payload that is a list whose first
    element has no [detail] entry.  The lookup in the handler of the type
    error raises [KeyError]; it propagates, and the response keeps its
    status code. *)
Theorem list_payload_without_detail_raises (media_type : option string) :
  let response := {| status_code := 400; _rendered_data := None |} in
  render_json orjson_dumps options OPT_INDENT_2
    (VList [VDict [("name", VList [VStr "This field is required."])]])
    media_type (Some (response_context None response))
  = (Raise KeyError, Some response).
Proof. reflexivity. Qed.

(** C10. Given data that is not null and no response, be it that the
    context is null or that it has no response entry, the JSON renderer
    raises [AttributeError]: it returns no bytes. *)
Theorem json_needs_response (data : value) (media_type : option string)
    (renderer_context : option context) :
  data <> VNone ->
  response_of renderer_context = None ->
  render_json orjson_dumps options OPT_INDENT_2
              data media_type renderer_context
  = (Raise AttributeError, None).
Proof.
  intros Hdata Hresp. unfold render_json.
  destruct renderer_context as [ctx|]; [|reflexivity].
  cbn [response_of] in Hresp. rewrite Hresp.
  destruct data; congruence.
Qed.

End EnvelopeFacts.

(** ** Concrete inputs

    The model run on small inputs, with the stand-ins for the
    collaborators. *)

Example csv_of_two_records :
  render_csv ascii_writer CustomCSVRenderer
    (DataDict
       [("results",
         {| ds_items := [ [("a", VInt 1); ("b", VInt 2)];
                          [("a", VInt 3); ("b", VInt 4)] ];
            ds_header := None |})])
    None
  = Ok (list_byte_of_string
          ("a,b" ++ crlf ++ "1,2" ++ crlf ++ "3,4" ++ crlf)).
Proof. reflexivity. Qed.

Example csv_of_header_alone :
  render_csv ascii_writer CustomCSVRenderer
    (DataDict [("results", empty_list)])
    (Some {| ctx_writer_opts := None; ctx_header := Some (Some ["a"; "b"]);
             ctx_encoding := None; ctx_export_style := None;
             ctx_request := None; ctx_response := None |})
  = Ok (list_byte_of_string ("a,b" ++ crlf)).
Proof. reflexivity. Qed.

Example sheet_of_nested_value :
  build_sheet plain_append used_row1_cells CustomXLSXRenderer
    {| ds_items := [ [("a", VList [VInt 1; VInt 2])] ]; ds_header := None |}
    (Some empty_context)
  = Ok {| ws_rows := [ [VStr "a"]; [VStr "[1, 2]"] ];
          ws_row1_styles :=
            [ {| cell_font := Font true;
                 cell_fill := PatternFill "solid" "87CEFA";
                 cell_alignment := Alignment "center" |} ];
          ws_row1_height := StyleInt 18;
          ws_freeze_panes := StyleStr "A2";
          ws_print_title_rows := "1:1" |}.
Proof. reflexivity. Qed.

Example envelope_of_listed_detail :
  render_json json_dumps 528 1
    (VList [VDict [("detail", VStr "bad")]]) None
    (Some (response_context None
             {| status_code := 400; _rendered_data := None |}))
  = (Ok (list_byte_of_string
           (json_text (VDict [("ret", VInt 400); ("msg", VStr "bad")]))),
     Some {| status_code := 200;
             _rendered_data :=
               Some (VDict [("ret", VInt 400); ("msg", VStr "bad")]) |}).
Proof. reflexivity. Qed.

Example envelope_of_success :
  render_json json_dumps 528 1
    (VDict [("id", VInt 7)]) None
    (Some (response_context (Some {| req_id := Some (VStr "r1") |})
             {| status_code := 201; _rendered_data := None |}))
  = (Ok (list_byte_of_string
           (json_text
              (VDict [ ("request_id", VStr "r1"); ("ret", VInt 201);
                       ("msg", VStr "success");
                       ("data", VDict [("id", VInt 7)]) ]))),
     Some {| status_code := 200;
             _rendered_data :=
               Some (VDict [ ("request_id", VStr "r1"); ("ret", VInt 201);
                             ("msg", VStr "success");
                             ("data", VDict [("id", VInt 7)]) ]) |}).
Proof. reflexivity. Qed.


Lemma missing_data_is_recovered_witness :
  render_csv ascii_writer CustomCSVRenderer
    (DataDict [("count", empty_list)]) None
  = Ok [].
Proof.
  exact (proj1 (proj2 (proj2
    (missing_data_is_recovered ascii_writer plain_append used_row1_cells
       plain_save
       CustomCSVRenderer CustomXLSXRenderer
       [("count", empty_list)] None eq_refl eq_refl)))).
Defined.

Lemma csv_encoding_defaults_to_gbk_witness :
  exists (rows : list (list value)) (opts : writer_opts),
    table_rows {| ds_items := [ [("a", VInt 1)] ]; ds_header := None |} None
    = Ok rows
    /\ render_csv ascii_writer CustomCSVRenderer
         (DataRows {| ds_items := [ [("a", VInt 1)] ]; ds_header := None |})
         None
       = (writerow <- ascii_writer "gbk" opts ;;
          fold_rows
            (fun cells buffer =>
               line <- writerow cells ;; Ok (buffer ++ line)%list)
            rows []).
Proof.
  refine (csv_encoding_defaults_to_gbk ascii_writer CustomCSVRenderer
            (DataRows {| ds_items := [ [("a", VInt 1)] ]; ds_header := None |})
            None _).
  discriminate.
Defined.

Lemma null_context_tolerance_witness :
  render_xlsx plain_append used_row1_cells plain_save CustomXLSXRenderer
    (DataRows {| ds_items := [ [("a", VInt 1)] ]; ds_header := None |}) None
  = Raise AttributeError.
Proof.
  refine (proj1 (proj2
    (null_context_tolerance ascii_writer plain_append used_row1_cells
       plain_save
       CustomCSVRenderer CustomXLSXRenderer
       (DataRows {| ds_items := [ [("a", VInt 1)] ]; ds_header := None |})
       _))).
  discriminate.
Defined.

Lemma error_envelope_takes_detail_witness :
  exists served : Z,
    render_json json_dumps 528 1
      (VDict [("detail", VStr "not found")]) None
      (Some (response_context None
               {| status_code := 404; _rendered_data := None |}))
    = (json_dumps (VDict [("ret", VInt 404); ("msg", VStr "not found")])
                  served,
       Some {| status_code := 200;
               _rendered_data :=
                 Some (VDict [ ("ret", VInt 404);
                               ("msg", VStr "not found") ]) |}).
Proof.
  exact (proj2
    (error_envelope_takes_detail json_dumps 528 1
       (VDict [("detail", VStr "not found")]) (VStr "not found") None
       (response_context None {| status_code := 404; _rendered_data := None |})
       {| status_code := 404; _rendered_data := None |}
       eq_refl eq_refl eq_refl)).
Defined.

Lemma json_needs_response_witness :
  render_json json_dumps 528 1 (VList [VInt 1]) None (Some empty_context)
  = (Raise AttributeError, None)
  /\ render_json json_dumps 528 1 (VList [VInt 1]) None None
     = (Raise AttributeError, None).
Proof.
  split.
  - refine (json_needs_response json_dumps 528 1 (VList [VInt 1]) None
              (Some empty_context) _ eq_refl).
    discriminate.
  - refine (json_needs_response json_dumps 528 1 (VList [VInt 1]) None
              None _ eq_refl).
    discriminate.
Defined.

(** C3, as first stated, fails: an override that gives the row height only
    is not completed from the defaults, although the defaults hold the other
    keys; the render stops on the missing font. *)
Lemma partial_export_style_is_not_merged :
  render_xlsx plain_append used_row1_cells plain_save CustomXLSXRenderer
    (DataRows {| ds_items := [ [("a", VInt 1)] ]; ds_header := None |})
    (Some {| ctx_writer_opts := None; ctx_header := None;
             ctx_encoding := None;
             ctx_export_style := Some [("header_height", StyleInt 30)];
             ctx_request := None; ctx_response := None |})
  = Raise KeyError
  /\ Dict.get "header_font" (xlsx_export_style CustomXLSXRenderer)
     = Some (Font true).
Proof. split; reflexivity. Qed.

(** C6, as first stated, fails: a payload of field errors has no detail;
    the message is the generic one and the envelope keeps its [data]
    entry. *)
Lemma field_errors_keep_data :
  snd (render_json json_dumps 528 1
         (VDict [("name", VList [VStr "This field is required."])]) None
         (Some (response_context None
                  {| status_code := 400; _rendered_data := None |})))
  = Some {| status_code := 200;
            _rendered_data :=
              Some (VDict
                      [ ("ret", VInt 400);
                        ("msg", VStr "Invalid input.");
                        ("data",
                         VDict
                           [("name",
                             VList [VStr "This field is required."])]) ]) |}.
Proof. reflexivity. Qed.

(** * Further properties *)

(** ** Dictionaries built by [dict(item)] *)

Module DictMore.
Section Facts.
Context {V : Type}.
Implicit Types (d : Dict.t V) (k : string) (v : V).

Lemma get_set_same k v d : Dict.get k (Dict.set k v d) = Some v.
Proof.
  induction d as [|[k' v'] d IH]; simpl.
  - now rewrite String.eqb_refl.
  - destruct (String.eqb k k') eqn:E; simpl; rewrite E; auto.
Qed.

Lemma get_set_other k k' v d :
  k <> k' -> Dict.get k (Dict.set k' v d) = Dict.get k d.
Proof.
  intros Hne. induction d as [|[k0 v0] d IH]; simpl.
  - destruct (String.eqb_spec k k'); congruence.
  - destruct (String.eqb_spec k' k0) as [->|Hk]; simpl.
    + destruct (String.eqb_spec k k0); congruence.
    + destruct (String.eqb_spec k k0); auto.
Qed.

Lemma keys_set_in k v d :
  In k (Dict.keys d) -> Dict.keys (Dict.set k v d) = Dict.keys d.
Proof.
  induction d as [|[k' v'] d IH]; simpl; [intros []|].
  intros Hin. destruct (String.eqb_spec k k') as [E|Hne]; simpl.
  - reflexivity.
  - f_equal. apply IH. destruct Hin; congruence.
Qed.

Lemma keys_set_fresh k v d :
  ~ In k (Dict.keys d) ->
  Dict.keys (Dict.set k v d) = (Dict.keys d ++ [k])%list.
Proof.
  intros Hnotin. rewrite DictFacts.set_fresh by assumption.
  unfold Dict.keys. now rewrite map_app.
Qed.

Lemma NoDup_keys_set k v d :
  NoDup (Dict.keys d) -> NoDup (Dict.keys (Dict.set k v d)).
Proof.
  intros Hnd.
  destruct (in_dec string_dec k (Dict.keys d)) as [Hin|Hnotin].
  - now rewrite keys_set_in.
  - rewrite keys_set_fresh by assumption.
    apply NoDup_app; auto.
    + constructor; [intros []|constructor].
    + intros x Hx [Hk|[]]. subst x. contradiction.
Qed.

Lemma NoDup_keys_fold (pairs : list (string * V)) :
  forall d, NoDup (Dict.keys d) ->
  NoDup (Dict.keys
           (fold_left (fun d kv => Dict.set (fst kv) (snd kv) d) pairs d)).
Proof.
  induction pairs as [|[k v] pairs IH]; intros d Hnd; simpl; auto.
  apply IH. now apply NoDup_keys_set.
Qed.

(** A dictionary built by [dict(pairs)] has distinct keys. *)
Lemma NoDup_keys_of_pairs (pairs : list (string * V)) :
  NoDup (Dict.keys (Dict.of_pairs pairs)).
Proof. apply NoDup_keys_fold. constructor. Qed.

End Facts.
End DictMore.

(** ** The table, for every header and every data *)

Lemma resolve_header_plain (items : list record) (hdr : option header) :
  resolve_header {| ds_items := items; ds_header := None |} hdr = hdr.
Proof. unfold resolve_header. now destruct (header_truthy hdr). Qed.

Lemma expected_rows_plain (data : dataset) (hdr : option header) :
  expected_rows data hdr
  = expected_rows {| ds_items := ds_items data; ds_header := None |}
                  (resolve_header data hdr).
Proof.
  unfold expected_rows at 2. rewrite resolve_header_plain. reflexivity.
Qed.

Lemma get_value_flat (item : dict) (key : string) :
  is_dict_or_list (get_value item key) = false.
Proof.
  unfold get_value.
  destruct (Dict.get_default key (VStr "") item); reflexivity.
Qed.

(** X1. With a header at hand (the argument, or else the attribute of the
    data) the table is the header followed by one row per record, in
    order, holding the record's cells at the header keys: the header is
    never extended, a key outside it is dropped and a key missing from a
    record gives the empty string. *)
Theorem tablize_with_header (data : dataset) (hdr : option header) :
  header_truthy (resolve_header data hdr) = true ->
  let h := header_keys (resolve_header data hdr) in
  table_rows data hdr
  = Ok (map VStr h
        :: map (fun item => map (get_value (Dict.of_pairs item)) h)
               (ds_items data)).
Proof.
  intros Htrue h. rewrite table_rows_expected.
  unfold expected_rows, flatten_data. rewrite Htrue. fold h.
  destruct (ds_items data) as [|r0 rs]; [reflexivity|].
  cbn [map]. unfold cells_of. now rewrite map_map.
Qed.

Lemma tablize_with_header_witness :
  table_rows
    {| ds_items := [ [("a", VInt 1); ("b", VInt 2)]; [("c", VInt 3)] ];
       ds_header := Some (Some ["b"; "a"]) |} None
  = Ok [ [VStr "b"; VStr "a"]; [VInt 2; VInt 1]; [VStr ""; VStr ""] ].
Proof.
  exact (tablize_with_header
           {| ds_items := [ [("a", VInt 1); ("b", VInt 2)]; [("c", VInt 3)] ];
              ds_header := Some (Some ["b"; "a"]) |} None eq_refl).
Defined.

(** X2. A header argument that is true wins over the header attribute of
    the data; without one, the attribute of the data stands in for the
    argument: the table is that of the bare items under the attribute. *)
Theorem header_attribute_stands_in (data : dataset) (hdr : option header) :
  let items := {| ds_items := ds_items data; ds_header := None |} in
  match ds_header data with
  | None => table_rows data hdr = table_rows items hdr
  | Some attribute =>
      table_rows data hdr
      = table_rows items (if header_truthy hdr then hdr else attribute)
  end.
Proof.
  intros items. rewrite (table_rows_expected data hdr).
  rewrite (expected_rows_plain data hdr). unfold resolve_header.
  destruct (ds_header data) as [attribute|];
    rewrite table_rows_expected;
    destruct (header_truthy hdr); reflexivity.
Qed.


(** X4. No cell of any row of any table is a dictionary or a list: the
    rows handed to the writers are flat. *)
Theorem table_cells_are_flat (data : dataset) (hdr : option header) :
  exists rows : list (list value),
    table_rows data hdr = Ok rows
    /\ Forall (Forall (fun cell => is_dict_or_list cell = false)) rows.
Proof.
  exists (expected_rows data hdr). split; [apply table_rows_expected|].
  assert (Hkeys : forall h : header,
             Forall (fun cell => is_dict_or_list cell = false) (map VStr h)).
  { intros h. apply Forall_map, Forall_forall. reflexivity. }
  assert (Hcells : forall (h : header) (items : list dict),
             Forall (Forall (fun cell => is_dict_or_list cell = false))
                    (map (cells_of h) items)).
  { intros h items. apply Forall_map, Forall_forall. intros item _.
    unfold cells_of. apply Forall_map, Forall_forall. intros key _.
    apply get_value_flat. }
  unfold expected_rows.
  destruct (flatten_data (ds_items data)) as [|first_data rest].
  - destruct (header_truthy _); repeat constructor. apply Hkeys.
  - constructor; [apply Hkeys|apply Hcells].
Qed.

(** X5. The table reads the records at the header keys only: two sequences
    of records that agree, record by record, on the keys of a given header
    have the same table. *)
Theorem table_reads_header_keys_only (items items' : list record)
    (key : string) (keys : list string) :
  Forall2 (fun r r' : record =>
             forall k, In k (key :: keys) ->
                       Dict.get k (Dict.of_pairs r)
                       = Dict.get k (Dict.of_pairs r'))
          items items' ->
  table_rows {| ds_items := items; ds_header := None |} (Some (key :: keys))
  = table_rows {| ds_items := items'; ds_header := None |}
               (Some (key :: keys)).
Proof.
  intros Hagree.
  assert (Hrows : map (cells_of (key :: keys)) (flatten_data items)
                  = map (cells_of (key :: keys)) (flatten_data items')).
  { unfold flatten_data.
    induction Hagree as [|r r' rs rs' Hr _ IH]; [reflexivity|].
    cbn [map]. f_equal; [|exact IH].
    apply map_ext_in. intros k Hk. unfold get_value, Dict.get_default.
    now rewrite (Hr k Hk). }
  rewrite !table_rows_expected. unfold expected_rows.
  rewrite !resolve_header_plain. cbn [ds_items header_truthy header_keys].
  pose proof (Forall2_length Hagree) as Hlen.
  unfold flatten_data in *.
  destruct items as [|r rs]; destruct items' as [|r' rs'];
    try discriminate; [reflexivity|].
  cbn [map] in *. now rewrite Hrows.
Qed.

Lemma table_reads_header_keys_only_witness :
  table_rows {| ds_items := [ [("a", VInt 1); ("x", VInt 9)] ];
                ds_header := None |} (Some ["a"])
  = table_rows {| ds_items := [ [("a", VInt 1)] ]; ds_header := None |}
               (Some ["a"]).
Proof.
  apply (table_reads_header_keys_only
           [ [("a", VInt 1); ("x", VInt 9)] ] [ [("a", VInt 1)] ] "a" []).
  constructor; [|constructor].
  intros k [Hk|[]]. subst k. reflexivity.
Defined.

(** ** Rows read after the generator has run *)

Lemma last_cons {A : Type} (l : list A) :
  forall a d : A, last (a :: l) d = last l a.
Proof.
  induction l as [|b l IH]; intros a d; [reflexivity|].
  change (last (a :: b :: l) d) with (last (b :: l) d).
  now rewrite !IH.
Qed.

Lemma exhaust_loop (h : header) (rest : list dict) :
  forall (fuel : nat) (f : frame),
    (List.length rest < fuel)%nat ->
    f = AtHeader h rest \/ (exists item, f = AtRow h item rest) ->
    exhaust fuel f
    = (Finished (final_item f rest), repeat (CellsOf h) (List.length rest)).
Proof.
  induction rest as [|item rest IH]; intros fuel f Hfuel Hf;
    (destruct fuel as [|fuel]; [simpl in Hfuel; lia|]).
  - destruct Hf as [->|[item ->]]; reflexivity.
  - assert (Hstep : next f = (AtRow h item rest, Yield (CellsOf h)))
      by (destruct Hf as [->|[item' ->]]; reflexivity).
    cbn [exhaust]. rewrite Hstep.
    rewrite (IH fuel (AtRow h item rest));
      [|simpl in Hfuel; lia|right; now exists item].
    cbn [List.length repeat]. f_equal. f_equal.
    unfold final_item. cbn [map frame_item]. symmetry. apply last_cons.
Qed.

Lemma exhaust_S (fuel : nat) (f : frame) :
  exhaust (S fuel) f
  = match next f with
    | (f', Yield r) => let (g, rs) := exhaust fuel f' in (g, r :: rs)
    | (f', _) => (f', [])
    end.
Proof. reflexivity. Qed.

Lemma final_item_last (f : frame) (earlier : list dict) (item : dict) :
  final_item f (earlier ++ [item]) = Some item.
Proof.
  unfold final_item. rewrite map_app. cbn [map]. apply last_last.
Qed.

(** X6. The cells of a row are computed when the row is read, from the
    item the generator then holds.  Read as they are yielded, the rows are
    those of the records in order; read after the whole table has been
    drawn from the generator (as in [list(tablize(data))]), every data row
    shows the cells of the last record. *)
Theorem rows_read_late_show_last_record (data : dataset)
    (hdr : option header) (earlier : list record) (last_record : record) :
  ds_items data = (earlier ++ [last_record])%list ->
  exists h : header,
    table_rows data hdr
    = Ok (map VStr h
          :: map (fun item => map (get_value (Dict.of_pairs item)) h)
                 (ds_items data))
    /\ rows_read_late data hdr
       = Ok (map VStr h)
         :: repeat (Ok (map (get_value (Dict.of_pairs last_record)) h))
                   (List.length (ds_items data)).
Proof.
  intros Hitems.
  assert (Hflat : flatten_data (ds_items data)
                  = (flatten_data earlier ++ [Dict.of_pairs last_record])%list).
  { unfold flatten_data. now rewrite Hitems, map_app. }
  assert (Hlen : List.length (flatten_data (ds_items data))
                 = List.length (ds_items data)) by apply length_map.
  destruct (flatten_data (ds_items data)) as [|first_data rest] eqn:Hflatten.
  { destruct (flatten_data earlier); discriminate. }
  set (h := if header_truthy (resolve_header data hdr)
            then header_keys (resolve_header data hdr)
            else Dict.keys first_data).
  exists h. split.
  - rewrite table_rows_expected. unfold expected_rows.
    rewrite Hflatten. fold h. f_equal. f_equal.
    rewrite <- Hflatten. unfold flatten_data, cells_of.
    now rewrite map_map.
  - unfold rows_read_late, tablize.
    change (resumptions (Fresh data hdr))
      with (S (S (List.length (ds_items data)))).
    rewrite exhaust_S, next_fresh. cbv zeta. rewrite Hflatten. fold h.
    cbv iota beta.
    rewrite (exhaust_loop h (first_data :: rest));
      [|rewrite Hlen; lia|now left].
    rewrite Hflat, final_item_last. cbn [map read_row].
    f_equal. rewrite map_repeat. rewrite <- Hflat, Hlen. f_equal.
    destruct h; reflexivity.
Qed.

Lemma rows_read_late_show_last_record_witness :
  exists h : header,
    table_rows {| ds_items := [ [("a", VInt 1)]; [("a", VInt 2)] ];
                  ds_header := None |} None
    = Ok (map VStr h
          :: map (fun item => map (get_value (Dict.of_pairs item)) h)
                 [ [("a", VInt 1)]; [("a", VInt 2)] ])
    /\ rows_read_late {| ds_items := [ [("a", VInt 1)]; [("a", VInt 2)] ];
                         ds_header := None |} None
       = Ok (map VStr h)
         :: repeat (Ok (map (get_value (Dict.of_pairs [("a", VInt 2)])) h)) 2.
Proof.
  exact (rows_read_late_show_last_record
           {| ds_items := [ [("a", VInt 1)]; [("a", VInt 2)] ];
              ds_header := None |} None
           [ [("a", VInt 1)] ] [("a", VInt 2)] eq_refl).
Defined.

(** ** The flattener *)

(** X7. [flatten_data] gives one dictionary per item, in order; each has
    distinct keys, and an item that is a dictionary already (its keys are
    distinct) comes out unchanged: nested values are not flattened. *)
Theorem flatten_data_copies_dictionaries (items : list record) :
  List.length (flatten_data items) = List.length items
  /\ Forall (fun d : dict => NoDup (Dict.keys d)) (flatten_data items)
  /\ (forall (i : nat) (item : record),
        nth_error items i = Some item ->
        NoDup (map fst item) ->
        nth_error (flatten_data items) i = Some item).
Proof.
  unfold flatten_data. repeat split.
  - apply length_map.
  - apply Forall_map, Forall_forall. intros item _.
    apply DictMore.NoDup_keys_of_pairs.
  - intros i item Hnth Hdict.
    pose proof (map_nth_error (@Dict.of_pairs value) i items Hnth) as H.
    rewrite (DictFacts.of_pairs_dict item Hdict) in H. exact H.
Qed.

(** ** The export renderers, further *)

Lemma fold_rows_lines (writerow : list value -> result bytes)
    (rows : list (list value)) :
  forall acc output : bytes,
    fold_rows (fun cells buffer =>
                 line <- writerow cells ;; Ok (buffer ++ line)%list)
              rows acc = Ok output
    <-> exists lines : list bytes,
          Forall2 (fun cells line => writerow cells = Ok line) rows lines
          /\ output = (acc ++ List.concat lines)%list.
Proof.
  induction rows as [|cells rows IH]; intros acc output; cbn [fold_rows].
  - split.
    + intros [= <-]. exists []. split; [constructor|].
      cbn. now rewrite app_nil_r.
    + intros (lines & Hall & ->). inversion Hall; subst.
      cbn. now rewrite app_nil_r.
  - destruct (writerow cells) as [line|e] eqn:Hline; cbn [bind].
    + rewrite IH. split.
      * intros (lines & Hall & ->). exists (line :: lines). split.
        -- now constructor.
        -- cbn. now rewrite app_assoc.
      * intros (lines & Hall & ->).
        inversion Hall as [|? line' ? lines' Hline' Hall']; subst.
        rewrite Hline in Hline'. injection Hline' as <-.
        exists lines'. split; [assumption|].
        cbn. now rewrite app_assoc.
    + split; [discriminate|].
      intros (lines & Hall & _). inversion Hall; subst. congruence.
Qed.

Lemma style_get_set_freeze_header (key : string) (v : style_value)
    (export_style : style) :
  key <> "freeze_header" ->
  Dict.get key (Dict.set "freeze_header" v export_style)
  = Dict.get key export_style.
Proof. intros Hkey. now apply DictMore.get_set_other. Qed.

Section RendererMore.

Variable csv_writer :
  string -> writer_opts -> result (list value -> result bytes).
Variable sheet_append :
  list value -> list (list value) -> result (list (list value)).
Variable row1_cells : list (list value) -> nat.
Variable workbook_save : worksheet -> result bytes.

(** X8. Of a mapping payload the renderers read the entry under their
    data key and nothing else: two mappings with the same entry there (or
    both without it) render alike, and a mapping renders as the rows under
    its data key do. *)
Theorem mapping_renders_as_its_rows (csv : CSVRenderer) (xlsx : XLSXRenderer)
    (entries entries' : Dict.t dataset) (renderer_context : option context) :
  (Dict.get (csv_data_key csv) entries = Dict.get (csv_data_key csv) entries'
   -> render_csv csv_writer csv (DataDict entries) renderer_context
      = render_csv csv_writer csv (DataDict entries') renderer_context)
  /\ (Dict.get (xlsx_data_key xlsx) entries
      = Dict.get (xlsx_data_key xlsx) entries'
      -> render_xlsx sheet_append row1_cells workbook_save xlsx
           (DataDict entries) renderer_context
         = render_xlsx sheet_append row1_cells workbook_save xlsx
             (DataDict entries') renderer_context)
  /\ (forall rows : dataset,
        Dict.get (csv_data_key csv) entries = Some rows ->
        render_csv csv_writer csv (DataDict entries) renderer_context
        = render_csv csv_writer csv (DataRows rows) renderer_context)
  /\ (forall rows : dataset,
        Dict.get (xlsx_data_key xlsx) entries = Some rows ->
        render_xlsx sheet_append row1_cells workbook_save xlsx
          (DataDict entries) renderer_context
        = render_xlsx sheet_append row1_cells workbook_save xlsx
            (DataRows rows) renderer_context).
Proof.
  repeat split.
  - intros Hsame. unfold render_csv, select_rows, Dict.getitem.
    now rewrite Hsame.
  - intros Hsame. unfold render_xlsx, select_rows, Dict.getitem.
    now rewrite Hsame.
  - intros rows Hrows. unfold render_csv, select_rows, Dict.getitem.
    now rewrite Hrows.
  - intros rows Hrows. unfold render_xlsx, select_rows, Dict.getitem.
    now rewrite Hrows.
Qed.

(** X9. A CSV render of data that is not null returns bytes exactly when
    the writer can be made and takes every row of the table; the bytes are
    then the lines of the rows, one after the other in row order.  A row
    the writer refuses makes the whole render raise: no partial output. *)
Theorem csv_bytes_are_the_lines (self : CSVRenderer) (data : export_data)
    (renderer_context : option context) (output : bytes) :
  data <> DataNone ->
  let ctx := ctx_get renderer_context empty_context in
  render_csv csv_writer self data renderer_context = Ok output
  <-> exists (writerow : list value -> result bytes)
             (rows : list (list value)) (lines : list bytes),
        csv_writer (ctx_get (ctx_encoding ctx) "gbk")
                   (ctx_get (ctx_writer_opts ctx)
                            (ctx_get (csv_writer_opts self) []))
        = Ok writerow
        /\ table_rows (select_rows (csv_data_key self) data)
                      (ctx_get (ctx_header ctx) (csv_header self)) = Ok rows
        /\ Forall2 (fun cells line => writerow cells = Ok line) rows lines
        /\ output = List.concat lines.
Proof.
  intros Hdata ctx.
  rewrite (render_csv_rows csv_writer self data renderer_context Hdata).
  fold ctx.
  destruct (csv_writer _ _) as [writerow|e]; cbn [bind].
  - rewrite fold_rows_lines. split.
    + intros (lines & Hall & ->).
      exists writerow, (expected_rows (select_rows (csv_data_key self) data)
                          (ctx_get (ctx_header ctx) (csv_header self))), lines.
      repeat split; auto. apply table_rows_expected.
    + intros (writerow' & rows & lines & [= <-] & Hrows & Hall & ->).
      rewrite table_rows_expected in Hrows. injection Hrows as <-.
      now exists lines.
  - split; [discriminate|]. intros (? & ? & ? & Hw & _). discriminate.
Qed.

(** X10. The [freeze_header] entry of the export style is never read:
    whether the style override has it, and with which value, makes no
    difference to the sheet. *)
Theorem freeze_header_is_never_read (self : XLSXRenderer) (data : dataset)
    (ctx : context) (export_style : style) (v : style_value) :
  build_sheet sheet_append row1_cells self data
    (Some (with_export_style ctx (Dict.set "freeze_header" v export_style)))
  = build_sheet sheet_append row1_cells self data
      (Some (with_export_style ctx export_style)).
Proof.
  rewrite !build_sheet_spec. cbn [with_export_style ctx_header
    ctx_export_style ctx_get].
  destruct (fold_rows sheet_append _ []) as [rows|e]; [|reflexivity].
  cbn [bind]. rewrite !style_row1_spec.
  unfold Dict.getitem, Dict.get_default.
  rewrite !style_get_set_freeze_header by discriminate.
  reflexivity.
Qed.


End RendererMore.

Lemma csv_bytes_are_the_lines_witness :
  render_csv ascii_writer CustomCSVRenderer
    (DataRows {| ds_items := [ [("a", VInt 1)] ]; ds_header := None |}) None
  = Ok (list_byte_of_string ("a" ++ crlf ++ "1" ++ crlf)).
Proof.
  refine (proj2 (csv_bytes_are_the_lines ascii_writer CustomCSVRenderer
                   (DataRows {| ds_items := [ [("a", VInt 1)] ];
                                ds_header := None |})
                   None (list_byte_of_string ("a" ++ crlf ++ "1" ++ crlf)) _)
                _).
  - discriminate.
  - exists ascii_writerow, [ [VStr "a"]; [VInt 1] ],
      [ list_byte_of_string ("a" ++ crlf); list_byte_of_string ("1" ++ crlf) ].
    repeat split.
    repeat constructor.
Defined.


(** ** The JSON envelope, further *)

Lemma envelope_entries (ctx : context) (code : Z) (data : value) :
  envelope ctx code data
  = (request_entry ctx
     ++ [("ret", VInt code); ("msg", VStr "success")] ++ data_entry data)%list.
Proof.
  unfold envelope, request_entry, data_entry.
  destruct (ctx_request ctx) as [[[id|]]|]; destruct data; reflexivity.
Qed.

(** Setting [msg] on the envelope, and dropping [data] from it. *)
Lemma envelope_set_msg (ctx : context) (code : Z) (data msg : value) :
  Dict.set "msg" msg (envelope ctx code data)
  = (request_entry ctx
     ++ [("ret", VInt code); ("msg", msg)] ++ data_entry data)%list.
Proof.
  unfold envelope, request_entry, data_entry.
  destruct (ctx_request ctx) as [[[id|]]|]; destruct data; reflexivity.
Qed.

Lemma bits_of_fold_lor (flags : list Z) (i : Z) :
  forall acc : Z,
    Z.testbit (fold_left Z.lor flags acc) i
    = Z.testbit acc i || existsb (fun flag => Z.testbit flag i) flags.
Proof.
  induction flags as [|flag flags IH]; intros acc; cbn [fold_left existsb].
  - now rewrite orb_false_r.
  - now rewrite IH, Z.lor_spec, orb_assoc.
Qed.

Section EnvelopeMore.

Variable orjson_dumps : value -> Z -> result bytes.
Variable options : Z.
Variable OPT_INDENT_2 : Z.

(** With a response in the context, the render is decided by the envelope:
    an exception of the detail lookup leaves the response as it is; else
    the envelope goes to the serializer and to [_rendered_data], and the
    status code becomes 200, whatever the serializer answers. *)
Lemma render_json_with_response (data : value) (media_type : option string)
    (ctx : context) (response : response) :
  ctx_response ctx = Some response ->
  render_json orjson_dumps options OPT_INDENT_2 data media_type (Some ctx)
  = match (if negb (is_success (status_code response))
           then error_detail data
                  (envelope ctx (status_code response) data)
           else Ok (envelope ctx (status_code response) data)) with
    | Raise e => (Raise e, Some response)
    | Ok payload =>
        (orjson_dumps (VDict payload)
           (served_options options OPT_INDENT_2 media_type),
         Some {| status_code := 200;
                 _rendered_data := Some (VDict payload) |})
    end.
Proof. intros Hresp. unfold render_json. now rewrite Hresp. Qed.

(** X12. For a response with a success status the envelope is, in this
    order: the request id when the request has one, [ret] with the status
    code of the response, [msg] with [success], and [data] with the payload
    unless the payload is [None].  It goes to the serializer with the class
    options, indented for the media type [text/html] only, and is recorded
    on the response, whose status code becomes 200. *)
Theorem success_envelope (data : value) (media_type : option string)
    (ctx : context) (response : response) :
  ctx_response ctx = Some response ->
  is_success (status_code response) = true ->
  let payload :=
    VDict (request_entry ctx
           ++ [("ret", VInt (status_code response)); ("msg", VStr "success")]
           ++ data_entry data)%list in
  render_json orjson_dumps options OPT_INDENT_2 data media_type (Some ctx)
  = (orjson_dumps payload (served_options options OPT_INDENT_2 media_type),
     Some {| status_code := 200; _rendered_data := Some payload |}).
Proof.
  intros Hresp Hcode payload.
  rewrite (render_json_with_response _ _ _ _ Hresp), Hcode. cbn [negb].
  now rewrite envelope_entries.
Qed.

(** X13. For a response with an error status and a payload that is an
    object without a [detail] entry (field errors), no exception arises:
    the message is [Invalid input.], the payload stays in the envelope as
    [data], and the status code of the response becomes 200. *)
Theorem object_without_detail_gets_generic_message (d : list (string * value))
    (media_type : option string) (ctx : context) (response : response) :
  ctx_response ctx = Some response ->
  is_success (status_code response) = false ->
  Dict.get "detail" d = None ->
  let payload :=
    VDict (request_entry ctx
           ++ [ ("ret", VInt (status_code response));
                ("msg", VStr "Invalid input.");
                ("data", VDict d) ])%list in
  render_json orjson_dumps options OPT_INDENT_2 (VDict d) media_type
              (Some ctx)
  = (orjson_dumps payload (served_options options OPT_INDENT_2 media_type),
     Some {| status_code := 200; _rendered_data := Some payload |}).
Proof.
  intros Hresp Hcode Hdetail payload.
  rewrite (render_json_with_response _ _ _ _ Hresp), Hcode. cbn [negb].
  unfold error_detail. cbn [getitem]. unfold Dict.getitem.
  rewrite Hdetail, envelope_set_msg. reflexivity.
Qed.

(** X14. For a response with an error status, a payload that is no object
    and carries no detail makes the render raise, and the response keeps
    its status code and records nothing: [IndexError] for the empty list
    and the empty string, [KeyError] for a list whose first element is an
    object without detail, [TypeError] for every other payload, [None]
    among them. *)
Theorem malformed_error_payload_raises (data : value)
    (media_type : option string) (ctx : context) (response : response) :
  ctx_response ctx = Some response ->
  is_success (status_code response) = false ->
  (forall d, data <> VDict d) ->
  detail_of data = None ->
  render_json orjson_dumps options OPT_INDENT_2 data media_type (Some ctx)
  = (Raise match data with
           | VList [] | VStr EmptyString => IndexError
           | VList (VDict _ :: _) => KeyError
           | _ => TypeError
           end,
     Some response).
Proof.
  intros Hresp Hcode Hobject Hdetail.
  destruct data as [| | |s|xs|d]; [| | | | |now contradiction (Hobject d)];
    rewrite (render_json_with_response _ _ _ _ Hresp), Hcode; cbn [negb];
    unfold error_detail; cbn [getitem bind]; try reflexivity.
  - destruct s as [|c s]; [reflexivity|].
    cbn [list_ascii_of_string map]. rewrite index_first. reflexivity.
  - destruct xs as [|x xs]; [reflexivity|].
    rewrite index_first. cbn [bind].
    destruct x as [| | | | |d]; try reflexivity.
    cbn [getitem detail_of] in *. unfold Dict.getitem. now rewrite Hdetail.
Qed.

(** X15. Rendering is not repeatable on one response: once an error
    response has been rendered (its payload an object, or carrying a
    detail), its status code is 200, and a second render of the same
    payload with the same response yields the envelope of a success, [ret]
    200 and [msg] [success], with the error payload as [data]. *)
Theorem second_render_reports_success (data : value)
    (media_type : option string) (ctx : context) (current : response) :
  ctx_response ctx = Some current ->
  is_success (status_code current) = false ->
  (exists d, data = VDict d) \/ detail_of data <> None ->
  exists rendered : response,
    snd (render_json orjson_dumps options OPT_INDENT_2 data media_type
                     (Some ctx))
    = Some rendered
    /\ status_code rendered = 200
    /\ let payload :=
         VDict (request_entry ctx
                ++ [("ret", VInt 200); ("msg", VStr "success")]
                ++ data_entry data)%list in
       render_json orjson_dumps options OPT_INDENT_2 data media_type
                   (Some (with_response ctx rendered))
       = (orjson_dumps payload
            (served_options options OPT_INDENT_2 media_type),
          Some {| status_code := 200; _rendered_data := Some payload |}).
Proof.
  intros Hresp Hcode Hshape.
  assert (Hok : exists payload,
             error_detail data (envelope ctx (status_code current) data)
             = Ok payload).
  { destruct (detail_of data) as [detail|] eqn:Hdetail.
    - eexists. exact (error_detail_found _ _ _ Hdetail).
    - destruct Hshape as [[d ->]|Hne]; [|congruence].
      unfold error_detail. cbn [getitem detail_of] in *.
      unfold Dict.getitem. rewrite Hdetail. now eexists. }
  destruct Hok as [payload Hpayload].
  rewrite (render_json_with_response _ _ _ _ Hresp), Hcode. cbn [negb].
  rewrite Hpayload. cbn [snd]. eexists. split; [reflexivity|].
  split; [reflexivity|]. cbv zeta.
  rewrite (render_json_with_response _ _ (with_response ctx _) _ eq_refl).
  cbn [status_code is_success].
  change (negb ((200 <=? 200) && (200 <=? 299))) with false. cbv iota.
  rewrite envelope_entries. reflexivity.
Qed.

End EnvelopeMore.

(** X16. The option handed to the serializer has exactly the flags of
    [OPT_SERIALIZE_NUMPY], of [OPT_PASSTHROUGH_DATETIME] and of the options
    listed in the settings, and those of [OPT_INDENT_2] besides when the
    media type is [text/html]: the settings add flags and cannot remove the
    two built in. *)
Theorem serializer_option_flags (user_options : list Z)
    (OPT_SERIALIZE_NUMPY OPT_PASSTHROUGH_DATETIME OPT_INDENT_2 : Z)
    (media_type : option string) (i : Z) :
  Z.testbit
    (served_options
       (class_options user_options OPT_SERIALIZE_NUMPY
                      OPT_PASSTHROUGH_DATETIME)
       OPT_INDENT_2 media_type) i
  = Z.testbit OPT_SERIALIZE_NUMPY i
    || Z.testbit OPT_PASSTHROUGH_DATETIME i
    || existsb (fun flag => Z.testbit flag i) user_options
    || match media_type with
       | Some m => String.eqb m "text/html" && Z.testbit OPT_INDENT_2 i
       | None => false
       end.
Proof.
  assert (Hclass :
            Z.testbit (class_options user_options OPT_SERIALIZE_NUMPY
                                     OPT_PASSTHROUGH_DATETIME) i
            = Z.testbit OPT_SERIALIZE_NUMPY i
              || Z.testbit OPT_PASSTHROUGH_DATETIME i
              || existsb (fun flag => Z.testbit flag i) user_options).
  { unfold class_options. now rewrite bits_of_fold_lor, Z.lor_spec. }
  unfold served_options, html_media_type.
  destruct media_type as [m|]; [|now rewrite Hclass, orb_false_r].
  destruct (String.eqb m "text/html").
  - now rewrite Z.lor_spec, Hclass.
  - now rewrite Hclass, orb_false_r.
Qed.

Lemma success_envelope_witness :
  render_json json_dumps 528 1 VNone (Some "text/html")
    (Some (response_context (Some {| req_id := Some (VStr "r1") |})
             {| status_code := 204; _rendered_data := None |}))
  = (json_dumps
       (VDict [ ("request_id", VStr "r1"); ("ret", VInt 204);
                ("msg", VStr "success") ]) 529,
     Some {| status_code := 200;
             _rendered_data :=
               Some (VDict [ ("request_id", VStr "r1"); ("ret", VInt 204);
                             ("msg", VStr "success") ]) |}).
Proof.
  exact (success_envelope json_dumps 528 1 VNone (Some "text/html")
           (response_context (Some {| req_id := Some (VStr "r1") |})
              {| status_code := 204; _rendered_data := None |})
           {| status_code := 204; _rendered_data := None |}
           eq_refl eq_refl).
Defined.

Lemma object_without_detail_gets_generic_message_witness :
  snd (render_json json_dumps 528 1
         (VDict [("name", VList [VStr "This field is required."])]) None
         (Some (response_context None
                  {| status_code := 400; _rendered_data := None |})))
  = Some {| status_code := 200;
            _rendered_data :=
              Some (VDict
                      [ ("ret", VInt 400);
                        ("msg", VStr "Invalid input.");
                        ("data",
                         VDict
                           [("name",
                             VList [VStr "This field is required."])]) ]) |}.
Proof.
  exact (f_equal snd
           (object_without_detail_gets_generic_message json_dumps 528 1
              [("name", VList [VStr "This field is required."])] None
              (response_context None
                 {| status_code := 400; _rendered_data := None |})
              {| status_code := 400; _rendered_data := None |}
              eq_refl eq_refl eq_refl)).
Defined.

Lemma malformed_error_payload_raises_witness :
  render_json json_dumps 528 1 VNone None
    (Some (response_context None
             {| status_code := 404; _rendered_data := None |}))
  = (Raise TypeError, Some {| status_code := 404; _rendered_data := None |})
  /\ render_json json_dumps 528 1 (VList []) None
       (Some (response_context None
                {| status_code := 404; _rendered_data := None |}))
     = (Raise IndexError,
        Some {| status_code := 404; _rendered_data := None |})
  /\ render_json json_dumps 528 1 (VList [VStr "Not found."]) None
       (Some (response_context None
                {| status_code := 404; _rendered_data := None |}))
     = (Raise TypeError,
        Some {| status_code := 404; _rendered_data := None |}).
Proof.
  split; [|split].
  - exact (malformed_error_payload_raises json_dumps 528 1 VNone None
             (response_context None
                {| status_code := 404; _rendered_data := None |})
             {| status_code := 404; _rendered_data := None |}
             eq_refl eq_refl ltac:(discriminate) eq_refl).
  - exact (malformed_error_payload_raises json_dumps 528 1 (VList []) None
             (response_context None
                {| status_code := 404; _rendered_data := None |})
             {| status_code := 404; _rendered_data := None |}
             eq_refl eq_refl ltac:(discriminate) eq_refl).
  - exact (malformed_error_payload_raises json_dumps 528 1
             (VList [VStr "Not found."]) None
             (response_context None
                {| status_code := 404; _rendered_data := None |})
             {| status_code := 404; _rendered_data := None |}
             eq_refl eq_refl ltac:(discriminate) eq_refl).
Defined.

Lemma second_render_reports_success_witness :
  exists rendered : response,
    snd (render_json json_dumps 528 1
           (VDict [("detail", VStr "Not found.")]) None
           (Some (response_context None
                    {| status_code := 404; _rendered_data := None |})))
    = Some rendered
    /\ status_code rendered = 200
    /\ render_json json_dumps 528 1
         (VDict [("detail", VStr "Not found.")]) None
         (Some (with_response
                  (response_context None
                     {| status_code := 404; _rendered_data := None |})
                  rendered))
       = (json_dumps
            (VDict [ ("ret", VInt 200); ("msg", VStr "success");
                     ("data", VDict [("detail", VStr "Not found.")]) ])
            528,
          Some {| status_code := 200;
                  _rendered_data :=
                    Some (VDict
                            [ ("ret", VInt 200); ("msg", VStr "success");
                              ("data",
                               VDict [("detail", VStr "Not found.")]) ]) |}).
Proof.
  refine (second_render_reports_success json_dumps 528 1
            (VDict [("detail", VStr "Not found.")]) None
            (response_context None
               {| status_code := 404; _rendered_data := None |})
            {| status_code := 404; _rendered_data := None |}
            eq_refl eq_refl _).
  left. now eexists.
Defined.
